(** * AuthManager: the account session life cycle of the launcher

    A shallow embedding of [app/assets/js/authmanager.js].  The module
    authenticates credentials against Mojang's REST API, stores the resulting
    account in the launcher configuration, validates and refreshes the selected
    account and removes accounts.

    The embedding follows the JavaScript text:
    - the asynchronous functions are state transformers over a [World] that
      holds the in-memory configuration, its last saved copy, the state of the
      remote service and the chronological trace of the calls made;
    - [throw], [try]/[catch] and the rejection of the promise of an [async]
      function are explicit ([Completion], [try_catch], [async]);
    - the REST client and the message catalogue are collaborators that are
      not part of this file: they are variables of the section. *)

From stdpp Require Import gmap strings list fin_maps.

Local Open Scope string_scope.

(** ** JavaScript values that cross the module boundary *)

(** The object handed to the user interface: [{ title, desc }]. *)
Record Displayable : Type := mkDisplayable {
  title : string;
  desc : string
}.

(** What a [throw] or a rejected promise may carry in this module:
    [new Error(msg)], the [TypeError] the engine raises when a property of
    [undefined] is read, a displayable object, or the [error] field of a REST
    response as it is (possibly [undefined]). *)
Inductive Thrown : Type :=
| Error (message : string)
| TypeError (message : string)
| DisplayableObject (d : Displayable)
| RestError (e : option string).

(** The completion of a synchronous piece of code. *)
Inductive Completion (A : Type) : Type :=
| Normal (a : A)
| Throw (e : Thrown).
Arguments Normal {A} a.
Arguments Throw {A} e.

(** [helios-core]'s [RestResponseStatus]. *)
Inductive RestResponseStatus : Type := SUCCESS | ERROR.

Definition status_is_success (s : RestResponseStatus) : bool :=
  match s with SUCCESS => true | ERROR => false end.

(** [helios-core]'s [MojangErrorCode]: the members the module names. *)
Inductive MojangErrorCode : Type :=
| ERROR_METHOD_NOT_ALLOWED
| ERROR_NOT_FOUND
| ERROR_USER_MIGRATED
| ERROR_INVALID_CREDENTIALS
| ERROR_RATELIMIT
| ERROR_INVALID_TOKEN
| ERROR_ACCESS_TOKEN_HAS_PROFILE
| ERROR_CREDENTIALS_MISSING
| ERROR_INVALID_SALT_VERSION
| ERROR_UNSUPPORTED_MEDIA_TYPE
| ERROR_GONE
| ERROR_UNREACHABLE
| ERROR_NOT_PAID
| UNKNOWN.

Definition all_error_codes : list MojangErrorCode :=
  [ ERROR_METHOD_NOT_ALLOWED; ERROR_NOT_FOUND; ERROR_USER_MIGRATED;
    ERROR_INVALID_CREDENTIALS; ERROR_RATELIMIT; ERROR_INVALID_TOKEN;
    ERROR_ACCESS_TOKEN_HAS_PROFILE; ERROR_CREDENTIALS_MISSING;
    ERROR_INVALID_SALT_VERSION; ERROR_UNSUPPORTED_MEDIA_TYPE; ERROR_GONE;
    ERROR_UNREACHABLE; ERROR_NOT_PAID; UNKNOWN ].

(** The value that reaches the [switch] of the error mapper.  The cases of a
    [switch] compare with [===], so the only thing that matters about a value
    is which member of the enumeration it is identical to, if any.  A value
    identical to no member is kept with the text the template literal
    [`${errorCode}`] renders for it. *)
Inductive ErrorCodeValue : Type :=
| Member (code : MojangErrorCode)
| Foreign (rendered : string).

Definition in_enumeration (v : ErrorCodeValue) : Prop :=
  exists code, v = Member code.

(** A REST response: [data] and [error] may be [null]/[undefined]. *)
Record RestResponse (T : Type) : Type := mkRestResponse {
  data : option T;
  responseStatus : RestResponseStatus;
  error : option string;
  mojangErrorCode : ErrorCodeValue
}.
Arguments mkRestResponse {T}.
Arguments data {T}.
Arguments responseStatus {T}.
Arguments error {T}.
Arguments mojangErrorCode {T}.

Record Profile : Type := mkProfile {
  id : string;
  name : string
}.

(** The session an authenticate or refresh call answers with: it carries
    its two tokens; [selectedProfile] is the field the module tests against
    [null]. *)
Module Session.
Record t : Type := mk {
  accessToken : string;
  clientToken : string;
  selectedProfile : option Profile
}.
End Session.

(** ** ConfigManager *)

Module ConfigManager.

(** An entry of the authentication database. *)
Record AuthAccount : Type := mkAuthAccount {
  accessToken : string;
  username : string;
  uuid : string;
  displayName : string
}.

Record Config : Type := mkConfig {
  clientToken : option string;
  selectedAccount : option string;
  authenticationDatabase : gmap string AuthAccount
}.

Definition empty : Config :=
  {| clientToken := None; selectedAccount := None;
     authenticationDatabase := ∅ |}.

(** Modelled from the spec: [configmanager.js] is missing; this is
    AccountStore's [getClientToken()]. *)
Definition getClientToken (c : Config) : option string := clientToken c.

(** Modelled from the spec: [configmanager.js] is missing; this is
    AccountStore's [setClientToken(token)]. *)
Definition setClientToken (token : string) (c : Config) : Config :=
  {| clientToken := Some token;
     selectedAccount := selectedAccount c;
     authenticationDatabase := authenticationDatabase c |}.

(** Modelled from the spec: [configmanager.js] is missing; this is
    AccountStore's [get(id)], absent ([undefined]) for an unknown id. *)
Definition getAuthAccount (u : string) (c : Config) : option AuthAccount :=
  authenticationDatabase c !! u.

(** Modelled from the spec: [configmanager.js] is missing; this is
    AccountStore's [getSelected()]: the selected reference resolved in the
    database. *)
Definition getSelectedAccount (c : Config) : option AuthAccount :=
  match selectedAccount c with
  | Some u => authenticationDatabase c !! u
  | None => None
  end.

(** Modelled from the spec: [configmanager.js] is missing; the account is
    constructed from the profile id, the access token, the user name and the
    profile name, put in the store under its id, marked as selected when it
    is the store's first account, and returned. *)
Definition addMojangAuthAccount (u token user display : string) (c : Config)
  : AuthAccount * Config :=
  let account := {| accessToken := token; username := user;
                    uuid := u; displayName := display |} in
  (account,
   {| clientToken := clientToken c;
      selectedAccount :=
        if decide (authenticationDatabase c = ∅) then Some u
        else selectedAccount c;
      authenticationDatabase := <[u := account]> (authenticationDatabase c) |}).

Definition with_token (token : string) (a : AuthAccount) : AuthAccount :=
  {| accessToken := token; username := username a;
     uuid := uuid a; displayName := displayName a |}.

(** Modelled from the spec: [configmanager.js] is missing; the new access
    token replaces the old one in place, under the same id.  The spec does
    not say what happens for an id that is not stored; here nothing is
    changed then. *)
Definition updateMojangAuthAccount (u token : string) (c : Config) : Config :=
  {| clientToken := clientToken c;
     selectedAccount := selectedAccount c;
     authenticationDatabase := alter (with_token token) u (authenticationDatabase c) |}.

(** Modelled from the spec: [configmanager.js] is missing; this is
    AccountStore's [remove(id)].  The selected reference must resolve to an
    existing account when it is set, so it is cleared when it pointed to
    the removed account. *)
Definition removeAuthAccount (u : string) (c : Config) : Config :=
  {| clientToken := clientToken c;
     selectedAccount :=
       if decide (selectedAccount c = Some u) then None else selectedAccount c;
     authenticationDatabase := delete u (authenticationDatabase c) |}.

(** Every record is stored under its own id and the selected reference,
    when set, resolves. *)
Definition well_formed (c : Config) : Prop :=
  (forall k a, authenticationDatabase c !! k = Some a -> uuid a = k) /\
  (forall k, selectedAccount c = Some k -> is_Some (authenticationDatabase c !! k)).

End ConfigManager.

(** ** The world the asynchronous functions run in *)

Inductive LogLevel : Type := LogInfo | LogError.

(** What the module does to its collaborators, in the order it does it. *)
Inductive Event : Type :=
| CallAuthenticate (username password : string) (clientToken : option string)
| CallInvalidate (accessToken : string) (clientToken : option string)
| CallValidate (accessToken : string) (clientToken : option string)
| CallRefresh (accessToken : string) (clientToken : option string)
| StoreAdd (uuid accessToken username displayName : string)
| StoreSetClientToken (token : string)
| StoreUpdate (uuid accessToken : string)
| StoreRemove (uuid : string)
| StoreSave
| ConsoleLog
| Log (level : LogLevel) (text : string) (detail : option Thrown).

Definition is_store_mutation (e : Event) : bool :=
  match e with
  | StoreAdd _ _ _ _ | StoreSetClientToken _ | StoreUpdate _ _
  | StoreRemove _ | StoreSave => true
  | _ => false
  end.

Definition is_refresh (e : Event) : bool :=
  match e with CallRefresh _ _ => true | _ => false end.

Definition is_set_client_token (e : Event) : bool :=
  match e with StoreSetClientToken _ => true | _ => false end.

Definition count_events (p : Event -> bool) (t : list Event) : nat :=
  length (List.filter p t).

Record World (P : Type) : Type := mkWorld {
  config : ConfigManager.Config;      (* the configuration in memory *)
  disk : ConfigManager.Config;        (* the configuration as last saved *)
  remote : P;                         (* the state of the remote service *)
  trace : list Event
}.
Arguments mkWorld {P}.
Arguments config {P}.
Arguments disk {P}.
Arguments remote {P}.
Arguments trace {P}.

(** The REST client.  A call may answer with a response or throw, and may
    change the state of the remote service. *)
Record MojangRestAPI (P : Type) : Type := mkMojangRestAPI {
  authenticate : string -> string -> option string -> P ->
                 Completion (RestResponse Session.t) * P;
  invalidate : string -> option string -> P ->
               Completion (RestResponse unit) * P;
  validate : string -> option string -> P ->
             Completion (RestResponse bool) * P;
  refresh : string -> option string -> P ->
            Completion (RestResponse Session.t) * P
}.
Arguments authenticate {P}.
Arguments invalidate {P}.
Arguments validate {P}.
Arguments refresh {P}.

(** ** A state and exception monad for the function bodies *)

Module Run.
Section Monad.
Context {P : Type}.

Definition M (A : Type) : Type := World P -> Completion A * World P.

Definition ret {A} (a : A) : M A := fun w => (Normal a, w).

Definition bind {A B} (m : M A) (k : A -> M B) : M B :=
  fun w =>
    match m w with
    | (Normal a, w') => k a w'
    | (Throw e, w') => (Throw e, w')
    end.

Definition throw {A} (e : Thrown) : M A := fun w => (Throw e, w).

Definition lift {A} (c : Completion A) : M A := fun w => (c, w).

(** [try { body } catch (err) { handler }] *)
Definition try_catch {A} (body : M A) (handler : Thrown -> M A) : M A :=
  fun w =>
    match body w with
    | (Normal a, w') => (Normal a, w')
    | (Throw e, w') => handler e w'
    end.

Definition emit (e : Event) : M unit :=
  fun w => (Normal tt,
            {| config := config w; disk := disk w; remote := remote w;
               trace := trace w ++ [e] |}).

Definition read {A} (f : ConfigManager.Config -> A) : M A :=
  fun w => (Normal (f (config w)), w).

Definition update {A} (f : ConfigManager.Config -> A * ConfigManager.Config) : M A :=
  fun w => (Normal (fst (f (config w))),
            {| config := snd (f (config w)); disk := disk w; remote := remote w;
               trace := trace w |}).

Definition write (f : ConfigManager.Config -> ConfigManager.Config) : M unit :=
  update (fun c => (tt, f c)).

(** The configuration in memory is written out. *)
Definition commit : M unit :=
  fun w => (Normal tt,
            {| config := config w; disk := config w; remote := remote w;
               trace := trace w |}).

(** A call of the REST client, awaited. *)
Definition call {A} (f : P -> Completion A * P) : M A :=
  fun w =>
    let '(c, p') := f (remote w) in
    (c, {| config := config w; disk := disk w; remote := p';
           trace := trace w |}).

(** [o.field] where [o] may be [undefined]. *)
Definition property {O A} (o : option O) (field : string) (get : O -> A) : M A :=
  match o with
  | Some x => ret (get x)
  | None =>
      throw (TypeError ("Cannot read properties of undefined (reading '"
                        +:+ field +:+ "')"))
  end.
End Monad.
End Run.

Notation "'let*' x ':=' m 'in' k" := (Run.bind m (fun x => k))
  (at level 10, x name, m at level 100, k at level 200).
Notation "m ';;' k" := (Run.bind m (fun _ => k))
  (at level 100, k at level 200, right associativity).

(** ** Promises *)

Inductive Promise (A : Type) : Type :=
| Resolved (a : A)
| Rejected (r : Thrown).
Arguments Resolved {A} a.
Arguments Rejected {A} r.

(** What a [return] statement of an [async] function hands over: a plain
    value, or a promise that is already settled ([Promise.resolve()],
    [Promise.reject(r)]). *)
Inductive Returned (A : Type) : Type :=
| ReturnValue (a : A)
| ReturnPromise (p : Promise A).
Arguments ReturnValue {A} a.
Arguments ReturnPromise {A} p.

Definition Promise_reject {A} (r : Thrown) : Returned A :=
  ReturnPromise (Rejected r).
Definition Promise_resolve {A} (a : A) : Returned A :=
  ReturnPromise (Resolved a).

(** An [async] function: a returned value resolves the promise, a returned
    promise is adopted, an exception that leaves the body rejects it. *)
Definition async {P A} (body : Run.M (Returned A)) : World P -> Promise A * World P :=
  fun w =>
    match body w with
    | (Normal (ReturnValue a), w') => (Resolved a, w')
    | (Normal (ReturnPromise p), w') => (p, w')
    | (Throw e, w') => (Rejected e, w')
    end.

(** [await p]: the value of a resolved promise; a rejected one throws its
    reason. *)
Definition await {P A} (p : World P -> Promise A * World P) : Run.M A :=
  fun w =>
    match p w with
    | (Resolved a, w') => (Normal a, w')
    | (Rejected r, w') => (Throw r, w')
    end.

(** ** The module *)

Section AuthManager.

(** [Lang.queryJS]: the message catalogue, total on the keys asked for. *)
Variable queryJS : string -> string.

(** The state of the remote service and the REST client. *)
Context {P : Type}.
Variable api : MojangRestAPI P.

Let M := @Run.M P.

(** *** ConfigManager, as the module calls it *)

Definition ConfigManager_getClientToken : M (option string) :=
  Run.read ConfigManager.getClientToken.

Definition ConfigManager_setClientToken (token : string) : M unit :=
  Run.emit (StoreSetClientToken token) ;;
  Run.write (ConfigManager.setClientToken token).

Definition ConfigManager_getAuthAccount (u : string)
  : M (option ConfigManager.AuthAccount) :=
  Run.read (ConfigManager.getAuthAccount u).

Definition ConfigManager_getSelectedAccount
  : M (option ConfigManager.AuthAccount) :=
  Run.read ConfigManager.getSelectedAccount.

Definition ConfigManager_addMojangAuthAccount (u token user display : string)
  : M ConfigManager.AuthAccount :=
  Run.emit (StoreAdd u token user display) ;;
  Run.update (ConfigManager.addMojangAuthAccount u token user display).

Definition ConfigManager_updateMojangAuthAccount (u token : string) : M unit :=
  Run.emit (StoreUpdate u token) ;;
  Run.write (ConfigManager.updateMojangAuthAccount u token).

Definition ConfigManager_removeAuthAccount (u : string) : M unit :=
  Run.emit (StoreRemove u) ;;
  Run.write (ConfigManager.removeAuthAccount u).

(** Modelled from the spec: [configmanager.js] is missing; this is
    AccountStore's [commit()]: what is in memory becomes what is saved. *)
Definition ConfigManager_save : M unit :=
  Run.emit StoreSave ;;
  Run.commit.

(** *** MojangRestAPI, as the module calls it *)

Definition MojangRestAPI_authenticate (user password : string) (ct : option string)
  : M (RestResponse Session.t) :=
  Run.emit (CallAuthenticate user password ct) ;;
  Run.call (authenticate api user password ct).

Definition MojangRestAPI_invalidate (token : string) (ct : option string)
  : M (RestResponse unit) :=
  Run.emit (CallInvalidate token ct) ;;
  Run.call (invalidate api token ct).

Definition MojangRestAPI_validate (token : string) (ct : option string)
  : M (RestResponse bool) :=
  Run.emit (CallValidate token ct) ;;
  Run.call (validate api token ct).

Definition MojangRestAPI_refresh (token : string) (ct : option string)
  : M (RestResponse Session.t) :=
  Run.emit (CallRefresh token ct) ;;
  Run.call (refresh api token ct).

(** *** Logging *)

Definition console_log : M unit := Run.emit ConsoleLog.
Definition log_error (text : string) (detail : option Thrown) : M unit :=
  Run.emit (Log LogError text detail).
Definition log_info (text : string) : M unit :=
  Run.emit (Log LogInfo text None).

(** *** Error messages *)

Definition displayable (titleKey descKey : string) : Completion Displayable :=
  Normal {| title := queryJS titleKey; desc := queryJS descKey |}.

Definition mojangErrorDisplayable (errorCode : ErrorCodeValue)
  : Completion Displayable :=
  match errorCode with
  | Member ERROR_METHOD_NOT_ALLOWED =>
      displayable "auth.mojang.error.methodNotAllowedTitle"
                  "auth.mojang.error.methodNotAllowedDesc"
  | Member ERROR_NOT_FOUND =>
      displayable "auth.mojang.error.notFoundTitle"
                  "auth.mojang.error.notFoundDesc"
  | Member ERROR_USER_MIGRATED =>
      displayable "auth.mojang.error.accountMigratedTitle"
                  "auth.mojang.error.accountMigratedDesc"
  | Member ERROR_INVALID_CREDENTIALS =>
      displayable "auth.mojang.error.invalidCredentialsTitle"
                  "auth.mojang.error.invalidCredentialsDesc"
  | Member ERROR_RATELIMIT =>
      displayable "auth.mojang.error.tooManyAttemptsTitle"
                  "auth.mojang.error.tooManyAttemptsDesc"
  | Member ERROR_INVALID_TOKEN =>
      displayable "auth.mojang.error.invalidTokenTitle"
                  "auth.mojang.error.invalidTokenDesc"
  | Member ERROR_ACCESS_TOKEN_HAS_PROFILE =>
      displayable "auth.mojang.error.tokenHasProfileTitle"
                  "auth.mojang.error.tokenHasProfileDesc"
  | Member ERROR_CREDENTIALS_MISSING =>
      displayable "auth.mojang.error.credentialsMissingTitle"
                  "auth.mojang.error.credentialsMissingDesc"
  | Member ERROR_INVALID_SALT_VERSION =>
      displayable "auth.mojang.error.invalidSaltVersionTitle"
                  "auth.mojang.error.invalidSaltVersionDesc"
  | Member ERROR_UNSUPPORTED_MEDIA_TYPE =>
      displayable "auth.mojang.error.unsupportedMediaTypeTitle"
                  "auth.mojang.error.unsupportedMediaTypeDesc"
  | Member ERROR_GONE =>
      displayable "auth.mojang.error.accountGoneTitle"
                  "auth.mojang.error.accountGoneDesc"
  | Member ERROR_UNREACHABLE =>
      displayable "auth.mojang.error.unreachableTitle"
                  "auth.mojang.error.unreachableDesc"
  | Member ERROR_NOT_PAID =>
      displayable "auth.mojang.error.gameNotPurchasedTitle"
                  "auth.mojang.error.gameNotPurchasedDesc"
  | Member UNKNOWN =>
      displayable "auth.mojang.error.unknownErrorTitle"
                  "auth.mojang.error.unknownErrorDesc"
  | Foreign rendered =>
      Throw (Error ("Unknown error code: " +:+ rendered))
  end.

(** [Promise.reject(mojangErrorDisplayable(code))]: the argument is
    evaluated first and may throw. *)
Definition reject_displayable {A} (code : ErrorCodeValue) : M (Returned A) :=
  let* d := Run.lift (mojangErrorDisplayable code) in
  Run.ret (Promise_reject (DisplayableObject d)).

(** *** Functions *)

Definition addMojangAccount_body (username password : string)
  : M (Returned ConfigManager.AuthAccount) :=
  Run.try_catch
    (let* ct := ConfigManager_getClientToken in
     let* response := MojangRestAPI_authenticate username password ct in
     console_log ;;
     if status_is_success (responseStatus response) then
       let session := data response in
       let* profile := Run.property session "selectedProfile" Session.selectedProfile in
       match profile with
       | Some selected =>
           let* token := Run.property session "accessToken" Session.accessToken in
           let* account :=
             ConfigManager_addMojangAuthAccount (id selected) token username
                                                (name selected) in
           let* current := ConfigManager_getClientToken in
           (match current with
            | None =>
                let* fresh := Run.property session "clientToken" Session.clientToken in
                ConfigManager_setClientToken fresh
            | Some _ => Run.ret tt
            end) ;;
           ConfigManager_save ;;
           Run.ret (ReturnValue account)
       | None => reject_displayable (Member ERROR_NOT_PAID)
       end
     else reject_displayable (mojangErrorCode response))
    (fun err =>
       log_error "" (Some err) ;;
       reject_displayable (Member UNKNOWN)).

Definition addMojangAccount (username password : string)
  : World P -> Promise ConfigManager.AuthAccount * World P :=
  async (addMojangAccount_body username password).

Definition removeMojangAccount_body (uuid : string) : M (Returned unit) :=
  Run.try_catch
    (let* authAcc := ConfigManager_getAuthAccount uuid in
     let* token := Run.property authAcc "accessToken" ConfigManager.accessToken in
     let* ct := ConfigManager_getClientToken in
     let* response := MojangRestAPI_invalidate token ct in
     if status_is_success (responseStatus response) then
       ConfigManager_removeAuthAccount uuid ;;
       ConfigManager_save ;;
       Run.ret (Promise_resolve tt)
     else
       log_error "Error while removing account" (Some (RestError (error response))) ;;
       Run.ret (Promise_reject (RestError (error response))))
    (fun err =>
       log_error "Error while removing account" (Some err) ;;
       Run.ret (Promise_reject err)).

Definition removeMojangAccount (uuid : string)
  : World P -> Promise unit * World P :=
  async (removeMojangAccount_body uuid).

(** [!isValid] for [isValid = response.data]: only [true] is truthy. *)
Definition truthy (v : option bool) : bool :=
  match v with Some true => true | _ => false end.

(** The result is [Some b] for [return b] and [None] for [undefined],
    which is what the function yields when it runs off its end. *)
Definition validateSelectedMojangAccount_body : M (Returned (option bool)) :=
  let* current := ConfigManager_getSelectedAccount in
  let* token := Run.property current "accessToken" ConfigManager.accessToken in
  let* ct := ConfigManager_getClientToken in
  let* response := MojangRestAPI_validate token ct in
  if status_is_success (responseStatus response) then
    let isValid := data response in
    if negb (truthy isValid) then
      let* token' := Run.property current "accessToken" ConfigManager.accessToken in
      let* ct' := ConfigManager_getClientToken in
      let* refreshResponse := MojangRestAPI_refresh token' ct' in
      if status_is_success (responseStatus refreshResponse) then
        let session := data refreshResponse in
        let* u := Run.property current "uuid" ConfigManager.uuid in
        let* fresh := Run.property session "accessToken" Session.accessToken in
        ConfigManager_updateMojangAuthAccount u fresh ;;
        ConfigManager_save ;;
        log_info "Account access token validated." ;;
        Run.ret (ReturnValue (Some true))
      else
        log_error "Error while validating selected profile:"
                  (Some (RestError (error refreshResponse))) ;;
        log_info "Account access token is invalid." ;;
        Run.ret (ReturnValue (Some false))
    else
      log_info "Account access token validated." ;;
      Run.ret (ReturnValue (Some true))
  else Run.ret (ReturnValue None).

Definition validateSelectedMojangAccount
  : World P -> Promise (option bool) * World P :=
  async validateSelectedMojangAccount_body.

Definition validateSelected : World P -> Promise (option bool) * World P :=
  async (let* result := await validateSelectedMojangAccount in
         Run.ret (ReturnValue result)).

End AuthManager.

Arguments mojangErrorDisplayable queryJS errorCode : simpl nomatch.

(** ** Sequences of calls *)

Section Sequences.
Variable queryJS : string -> string.
Context {P : Type}.
Variable api : MojangRestAPI P.

(** [addMojangAccount] called once per pair of credentials, each call
    awaited before the next one starts. *)
Fixpoint addMojangAccounts (credentials : list (string * string)) (w : World P)
  : list (Promise ConfigManager.AuthAccount) * World P :=
  match credentials with
  | [] => ([], w)
  | (username, password) :: rest =>
      let r := addMojangAccount queryJS api username password w in
      let rs := addMojangAccounts rest (snd r) in
      (fst r :: fst rs, snd rs)
  end.

(** [validateSelected] called [n] times in a row. *)
Fixpoint validateSelected_times (n : nat) (w : World P)
  : list (Promise (option bool)) * World P :=
  match n with
  | O => ([], w)
  | S k =>
      let r := validateSelected api w in
      let rs := validateSelected_times k (snd r) in
      (fst r :: fst rs, snd rs)
  end.

(** The answer of the provider to [authenticate] in world [w]. *)
Definition authenticate_answer (username password : string) (w : World P)
  : Completion (RestResponse Session.t) :=
  fst (authenticate api username password
         (ConfigManager.getClientToken (config w)) (remote w)).

(** The provider authenticates the credentials in world [w] and answers
    with [session], whose selectable profile is [profile]. *)
Definition authenticates (username password : string) (w : World P)
           (session : Session.t) (profile : Profile) : Prop :=
  exists response,
    authenticate_answer username password w = Normal response /\
    responseStatus response = SUCCESS /\
    data response = Some session /\
    Session.selectedProfile session = Some profile.

(** Every call of [addMojangAccounts credentials w] is answered with a
    successful authentication; [sessions] lists the answers. *)
Fixpoint all_authenticate (credentials : list (string * string)) (w : World P)
         (sessions : list (Session.t * Profile)) : Prop :=
  match credentials, sessions with
  | [], [] => True
  | (username, password) :: rest, (session, profile) :: more =>
      authenticates username password w session profile /\
      all_authenticate rest (snd (addMojangAccount queryJS api username password w)) more
  | _, _ => False
  end.

(** The answer of the provider to [validate] for the selected account. *)
Definition validate_answer (current : ConfigManager.AuthAccount) (w : World P)
  : Completion (RestResponse bool) * P :=
  validate api (ConfigManager.accessToken current)
           (ConfigManager.getClientToken (config w)) (remote w).

(** The provider answers [validate] for the selected account of [w] with
    a successful response that says "valid". *)
Definition reports_valid (w : World P) : Prop :=
  exists current response,
    ConfigManager.getSelectedAccount (config w) = Some current /\
    fst (validate_answer current w) = Normal response /\
    responseStatus response = SUCCESS /\
    data response = Some true.

(** It does so at each of [n] calls of [validateSelected] in a row. *)
Fixpoint reports_valid_times (n : nat) (w : World P) : Prop :=
  match n with
  | O => True
  | S k => reports_valid w /\ reports_valid_times k (snd (validateSelected api w))
  end.

End Sequences.

(** ** Sample collaborators *)

Module Demo.

(** A catalogue that answers every key with a bracketed copy of it. *)
Definition catalogue (key : string) : string := "[" +:+ key +:+ "]".

(** A catalogue with no texts at all. *)
Definition blank_catalogue (key : string) : string := "".

Definition ok {T} (d : T) : RestResponse T :=
  {| data := Some d; responseStatus := SUCCESS; error := None;
     mojangErrorCode := Foreign "undefined" |}.

Definition failed {T} (code : ErrorCodeValue) : RestResponse T :=
  {| data := None; responseStatus := ERROR; error := Some "request failed";
     mojangErrorCode := code |}.

(** The session a healthy service opens or renews. *)
Definition session_for (user : string) (owns_game : bool) : Session.t :=
  {| Session.accessToken := "access-" +:+ user;
     Session.clientToken := "client-" +:+ user;
     Session.selectedProfile :=
       if owns_game then Some {| id := "uuid-" +:+ user; name := user |} else None |}.

(** A service that runs: it counts the calls it served. *)
Definition service (owns_game token_valid refresh_ok : bool) : MojangRestAPI nat :=
  {| authenticate := fun user _ _ n =>
       (Normal (ok (session_for user owns_game)), S n);
     invalidate := fun _ _ n => (Normal (ok tt), S n);
     validate := fun _ _ n => (Normal (ok token_valid), S n);
     refresh := fun _ _ n =>
       (Normal (if refresh_ok then ok (session_for "renewed" true)
                else failed (Member ERROR_INVALID_TOKEN)), S n) |}.

(** A service that answers every call with an error response. *)
Definition failing (code : ErrorCodeValue) : MojangRestAPI nat :=
  {| authenticate := fun _ _ _ n => (Normal (failed code), S n);
     invalidate := fun _ _ n => (Normal (failed code), S n);
     validate := fun _ _ n => (Normal (failed code), S n);
     refresh := fun _ _ n => (Normal (failed code), S n) |}.

(** A client whose calls throw. *)
Definition broken : MojangRestAPI nat :=
  {| authenticate := fun _ _ _ n => (Throw (Error "socket hang up"), n);
     invalidate := fun _ _ n => (Throw (Error "socket hang up"), n);
     validate := fun _ _ n => (Throw (Error "socket hang up"), n);
     refresh := fun _ _ n => (Throw (Error "socket hang up"), n) |}.

(** A service that answers each kind of call with a fixed outcome. *)
Definition scripted (a : Completion (RestResponse Session.t))
           (i : Completion (RestResponse unit))
           (v : Completion (RestResponse bool))
           (r : Completion (RestResponse Session.t)) : MojangRestAPI nat :=
  {| authenticate := fun _ _ _ n => (a, S n);
     invalidate := fun _ _ n => (i, S n);
     validate := fun _ _ n => (v, S n);
     refresh := fun _ _ n => (r, S n) |}.

(** A catalogue that answers every key with the key itself. *)
Definition echo (key : string) : string := key.

Definition fresh : World nat :=
  {| config := ConfigManager.empty; disk := ConfigManager.empty;
     remote := 0; trace := [] |}.

Definition steve : ConfigManager.AuthAccount :=
  {| ConfigManager.accessToken := "access-steve";
     ConfigManager.username := "steve@example.org";
     ConfigManager.uuid := "uuid-steve";
     ConfigManager.displayName := "steve" |}.

Definition steve_config : ConfigManager.Config :=
  {| ConfigManager.clientToken := Some "client-steve";
     ConfigManager.selectedAccount := Some "uuid-steve";
     ConfigManager.authenticationDatabase := {[ "uuid-steve" := steve ]} |}.

(** A launcher with one stored, selected account. *)
Definition logged_in : World nat :=
  {| config := steve_config; disk := steve_config; remote := 1; trace := [] |}.

End Demo.

(** The keys the error mapper asks the catalogue for. *)
Definition requested_keys : list string :=
  [ "auth.mojang.error.methodNotAllowedTitle"; "auth.mojang.error.methodNotAllowedDesc";
    "auth.mojang.error.notFoundTitle"; "auth.mojang.error.notFoundDesc";
    "auth.mojang.error.accountMigratedTitle"; "auth.mojang.error.accountMigratedDesc";
    "auth.mojang.error.invalidCredentialsTitle"; "auth.mojang.error.invalidCredentialsDesc";
    "auth.mojang.error.tooManyAttemptsTitle"; "auth.mojang.error.tooManyAttemptsDesc";
    "auth.mojang.error.invalidTokenTitle"; "auth.mojang.error.invalidTokenDesc";
    "auth.mojang.error.tokenHasProfileTitle"; "auth.mojang.error.tokenHasProfileDesc";
    "auth.mojang.error.credentialsMissingTitle"; "auth.mojang.error.credentialsMissingDesc";
    "auth.mojang.error.invalidSaltVersionTitle"; "auth.mojang.error.invalidSaltVersionDesc";
    "auth.mojang.error.unsupportedMediaTypeTitle"; "auth.mojang.error.unsupportedMediaTypeDesc";
    "auth.mojang.error.accountGoneTitle"; "auth.mojang.error.accountGoneDesc";
    "auth.mojang.error.unreachableTitle"; "auth.mojang.error.unreachableDesc";
    "auth.mojang.error.gameNotPurchasedTitle"; "auth.mojang.error.gameNotPurchasedDesc";
    "auth.mojang.error.unknownErrorTitle"; "auth.mojang.error.unknownErrorDesc" ].

(** The catalogue has a text for each of them. *)
Definition catalogue_complete (queryJS : string -> string) : Prop :=
  Forall (fun key => queryJS key <> "") requested_keys.

(** The world after a call that left the configuration alone: the remote
    service moved to [p] and [events] were appended to the trace. *)
Definition untouched {P} (w : World P) (p : P) (events : list Event) : World P :=
  {| config := config w; disk := disk w; remote := p;
     trace := trace w ++ events |}.

(** A call of the provider came back with a successful response. *)
Definition succeeded {T} (answer : Completion (RestResponse T)) : bool :=
  match answer with
  | Normal response => status_is_success (responseStatus response)
  | Throw _ => false
  end.

(** The promise resolved with an account made from the session: its id is
    the id of the profile and its access token the one of the session. *)
Definition yields (result : Promise ConfigManager.AuthAccount)
           (answer : Session.t * Profile) : Prop :=
  exists account,
    result = Resolved account /\
    ConfigManager.uuid account = id (snd answer) /\
    ConfigManager.accessToken account = Session.accessToken (fst answer).

(** The statement that removing an id that is not stored is rejected with a
    displayable object and leaves the configuration alone. *)
Definition absent_removal_is_mapped {P} (api : MojangRestAPI P)
           (uuid : string) (w : World P) : Prop :=
  ConfigManager.getAuthAccount uuid (config w) = None ->
  exists d : Displayable,
    fst (removeMojangAccount api uuid w) = Rejected (DisplayableObject d) /\
    config (snd (removeMojangAccount api uuid w)) = config w.

(** A computation keeps an invariant of the configuration in memory. *)
Definition keeps {P R} (I : ConfigManager.Config -> Prop)
           (f : World P -> R * World P) : Prop :=
  forall w, I (config w) -> I (config (snd (f w))).

Definition is_provider_call (e : Event) : bool :=
  match e with
  | CallAuthenticate _ _ _ | CallInvalidate _ _ | CallValidate _ _
  | CallRefresh _ _ => true
  | _ => false
  end.

(** Everything in memory has been written out. *)
Definition saved {P} (w : World P) : Prop := disk w = config w.

(** * Properties *)

(** ** The configuration store *)

Section Store.
Import ConfigManager.

Lemma well_formed_empty : well_formed empty.
Proof.
  split; cbn.
  - intros k a Hk. by rewrite lookup_empty in Hk.
  - intros k Hk. discriminate.
Qed.

Lemma well_formed_setClientToken token c :
  well_formed c -> well_formed (setClientToken token c).
Proof. intros [Hkeys Hsel]. split; cbn; assumption. Qed.

Lemma well_formed_addMojangAuthAccount u token user display c :
  well_formed c -> well_formed (snd (addMojangAuthAccount u token user display c)).
Proof.
  intros [Hkeys Hsel]. split; cbn.
  - intros k a. rewrite lookup_insert. case_decide as Hk.
    + intros [= <-]. cbn. exact Hk.
    + apply Hkeys.
  - intros k Hk. rewrite lookup_insert.
    destruct (decide (u = k)) as [Hku|Hku]; [by eexists|].
    destruct (decide (authenticationDatabase c = ∅)) as [Hempty|Hempty].
    + injection Hk as Hk. done.
    + by apply Hsel.
Qed.

Lemma well_formed_updateMojangAuthAccount u token c :
  well_formed c -> well_formed (updateMojangAuthAccount u token c).
Proof.
  intros [Hkeys Hsel]. split; cbn.
  - intros k a. rewrite lookup_alter. case_decide as Hk.
    + subst k. destruct (authenticationDatabase c !! u) as [b|] eqn:Hb; cbn; [|done].
      intros [= <-]. cbn. by apply Hkeys.
    + apply Hkeys.
  - intros k Hk. rewrite lookup_alter. case_decide as Hku.
    + subst k. destruct (Hsel u Hk) as [b ->]. by eexists.
    + by apply Hsel.
Qed.

Lemma well_formed_removeAuthAccount u c :
  well_formed c -> well_formed (removeAuthAccount u c).
Proof.
  intros [Hkeys Hsel]. split; cbn.
  - intros k a. rewrite lookup_delete. case_decide; [done|]. apply Hkeys.
  - intros k. case_decide as Hu; [done|]. intros Hk.
    rewrite lookup_delete. case_decide as Hku; [congruence|]. by apply Hsel.
Qed.

(** In a well-formed store the selected account is stored under its own
    id. *)
Lemma getSelectedAccount_stored c current :
  well_formed c ->
  getSelectedAccount c = Some current ->
  selectedAccount c = Some (uuid current) /\
  getAuthAccount (uuid current) c = Some current.
Proof.
  intros [Hkeys Hsel]. unfold getSelectedAccount, getAuthAccount.
  destruct (selectedAccount c) as [k|]; [|done].
  intros Hk. rewrite (Hkeys _ _ Hk). done.
Qed.

Lemma getAuthAccount_remove u c : getAuthAccount u (removeAuthAccount u c) = None.
Proof. unfold getAuthAccount. cbn. apply lookup_delete_eq. Qed.

Lemma getAuthAccount_update u token c account :
  getAuthAccount u c = Some account ->
  getAuthAccount u (updateMojangAuthAccount u token c) = Some (with_token token account).
Proof.
  unfold getAuthAccount. cbn. intros Hu. by rewrite lookup_alter_eq, Hu.
Qed.

Lemma getAuthAccount_update_other u v token c :
  u <> v ->
  getAuthAccount v (updateMojangAuthAccount u token c) = getAuthAccount v c.
Proof. unfold getAuthAccount. cbn. intros Huv. by rewrite lookup_alter_ne. Qed.

Lemma getAuthAccount_add u token user display c :
  getAuthAccount u (snd (addMojangAuthAccount u token user display c))
  = Some (fst (addMojangAuthAccount u token user display c)).
Proof. unfold getAuthAccount. cbn. apply lookup_insert_eq. Qed.

End Store.

(** ** Counting events *)

Lemma count_events_app (p : Event -> bool) (t1 t2 : list Event) :
  count_events p (t1 ++ t2) = count_events p t1 + count_events p t2.
Proof. unfold count_events. by rewrite List.filter_app, length_app. Qed.

(** ** The error mapper *)

Section ErrorMapper.
Variable queryJS : string -> string.

Lemma in_enumeration_Member code : in_enumeration (Member code).
Proof. by exists code. Qed.

Lemma not_in_enumeration_Foreign rendered : ~ in_enumeration (Foreign rendered).
Proof. by intros [code Hcode]. Qed.

Lemma all_error_codes_complete code : code ∈ all_error_codes.
Proof. destruct code; unfold all_error_codes; set_solver. Qed.

(** The fatal branch, with its message. *)
Lemma mojangErrorDisplayable_Foreign rendered :
  mojangErrorDisplayable queryJS (Foreign rendered)
  = Throw (Error ("Unknown error code: " +:+ rendered)).
Proof. reflexivity. Qed.

(** The mapper only ever reads the requested keys. *)
Lemma mojangErrorDisplayable_keys code :
  exists titleKey descKey,
    titleKey ∈ requested_keys /\ descKey ∈ requested_keys /\
    mojangErrorDisplayable queryJS (Member code)
    = Normal {| title := queryJS titleKey; desc := queryJS descKey |}.
Proof.
  destruct code; cbn; unfold displayable, requested_keys;
    eexists _, _; (split; [|split; [|reflexivity]]); set_solver.
Qed.

(** C1: for every error code of the known enumeration the mapper returns a
    displayable object whose title and description are not empty (they
    are the catalogue's texts, and the catalogue has one for each key the
    mapper asks for); for every value outside the enumeration it throws
    instead of returning. *)
Theorem mojangErrorDisplayable_known_or_fatal (errorCode : ErrorCodeValue) :
  catalogue_complete queryJS ->
  (in_enumeration errorCode ->
     exists d, mojangErrorDisplayable queryJS errorCode = Normal d /\
               title d <> "" /\ desc d <> "") /\
  (~ in_enumeration errorCode ->
     exists message,
       mojangErrorDisplayable queryJS errorCode = Throw (Error message) /\
       forall d, mojangErrorDisplayable queryJS errorCode <> Normal d).
Proof.
  intros Hcat. unfold catalogue_complete in Hcat. rewrite Forall_forall in Hcat.
  split.
  - intros [code ->].
    destruct (mojangErrorDisplayable_keys code) as (tk & dk & Ht & Hd & ->).
    eexists. split; [reflexivity|]. cbn. split; by apply Hcat.
  - intros Hout. destruct errorCode as [code|rendered].
    + destruct Hout. apply in_enumeration_Member.
    + eexists. split; [apply mojangErrorDisplayable_Foreign|]. intros d Hd. discriminate Hd.
Qed.

End ErrorMapper.

Lemma Demo_catalogue_complete : catalogue_complete Demo.catalogue.
Proof.
  unfold catalogue_complete. apply Forall_forall. intros key _. discriminate.
Defined.

Lemma mojangErrorDisplayable_known_or_fatal_witness :
  (exists d, mojangErrorDisplayable Demo.catalogue (Member ERROR_RATELIMIT) = Normal d /\
             title d <> "" /\ desc d <> "") /\
  (exists message,
      mojangErrorDisplayable Demo.catalogue (Foreign "42") = Throw (Error message) /\
      forall d, mojangErrorDisplayable Demo.catalogue (Foreign "42") <> Normal d).
Proof.
  split.
  - apply (mojangErrorDisplayable_known_or_fatal Demo.catalogue (Member ERROR_RATELIMIT)
             Demo_catalogue_complete).
    exists ERROR_RATELIMIT. reflexivity.
  - apply (mojangErrorDisplayable_known_or_fatal Demo.catalogue (Foreign "42")
             Demo_catalogue_complete).
    intros [code Hcode]. discriminate Hcode.
Defined.

(** The texts are the catalogue's: with a catalogue that has none, the
    object is returned all the same, with an empty title and description. *)
Lemma mojangErrorDisplayable_blank_catalogue (code : MojangErrorCode) :
  mojangErrorDisplayable Demo.blank_catalogue (Member code)
  = Normal {| title := ""; desc := "" |}.
Proof. by destruct code. Qed.

(** ** The account life cycle *)

Ltac unfold_run :=
  unfold addMojangAccount, addMojangAccount_body,
         removeMojangAccount, removeMojangAccount_body,
         validateSelected, validateSelectedMojangAccount,
         validateSelectedMojangAccount_body, await, async,
         reject_displayable, Promise_reject, Promise_resolve,
         MojangRestAPI_authenticate, MojangRestAPI_invalidate,
         MojangRestAPI_validate, MojangRestAPI_refresh,
         ConfigManager_getClientToken, ConfigManager_setClientToken,
         ConfigManager_getAuthAccount, ConfigManager_getSelectedAccount,
         ConfigManager_addMojangAuthAccount, ConfigManager_updateMojangAuthAccount,
         ConfigManager_removeAuthAccount, ConfigManager_save,
         console_log, log_error, log_info,
         Run.try_catch, Run.bind, Run.ret, Run.throw, Run.lift, Run.emit,
         Run.read, Run.write, Run.update, Run.commit, Run.call, Run.property.

Section Lifecycle.
Variable queryJS : string -> string.
Context {P : Type}.
Variable api : MojangRestAPI P.

(** C9: when the provider authenticates the credentials but the session
    has no selectable profile, [addMojangAccount] rejects with the
    displayable object of [ERROR_NOT_PAID]; the configuration in memory and
    on disk is left as it was, and the only things done are the call of the
    provider and the console output: nothing is added, no client token is
    set, nothing is saved. *)
Theorem addMojangAccount_no_profile
        (username password : string) (w : World P)
        (response : RestResponse Session.t) (p : P) (session : Session.t) :
  authenticate api username password
               (ConfigManager.getClientToken (config w)) (remote w)
  = (Normal response, p) ->
  responseStatus response = SUCCESS ->
  data response = Some session ->
  Session.selectedProfile session = None ->
  exists d,
    mojangErrorDisplayable queryJS (Member ERROR_NOT_PAID) = Normal d /\
    addMojangAccount queryJS api username password w
    = (Rejected (DisplayableObject d),
       untouched w p
         [CallAuthenticate username password (ConfigManager.getClientToken (config w));
          ConsoleLog]) /\
    count_events is_store_mutation
      [CallAuthenticate username password (ConfigManager.getClientToken (config w));
       ConsoleLog] = 0.
Proof.
  intros Hcall Hstatus Hdata Hprofile.
  eexists. split; [reflexivity|]. split; [|reflexivity].
  unfold_run. cbn. rewrite Hcall. cbn. rewrite Hstatus. cbn.
  rewrite Hdata. cbn. rewrite Hprofile. cbn.
  unfold untouched. rewrite <- !app_assoc. reflexivity.
Qed.

(** C10: when the provider answers [authenticate] with an error response
    whose code is outside the enumeration, the mapper's exception is caught
    inside [addMojangAccount]: the error is logged and the promise is
    rejected with the displayable object of [UNKNOWN].  That is exactly the
    rejection the caller gets when the call of the provider throws, so the
    two cannot be told apart from outside.  The configuration is left as
    it was. *)
Theorem addMojangAccount_unrecognized_code
        (username password : string) (w : World P)
        (response : RestResponse Session.t) (p : P) (rendered : string) :
  authenticate api username password
               (ConfigManager.getClientToken (config w)) (remote w)
  = (Normal response, p) ->
  responseStatus response <> SUCCESS ->
  mojangErrorCode response = Foreign rendered ->
  exists d,
    mojangErrorDisplayable queryJS (Member UNKNOWN) = Normal d /\
    mojangErrorDisplayable queryJS (mojangErrorCode response)
    = Throw (Error ("Unknown error code: " +:+ rendered)) /\
    addMojangAccount queryJS api username password w
    = (Rejected (DisplayableObject d),
       untouched w p
         [CallAuthenticate username password (ConfigManager.getClientToken (config w));
          ConsoleLog;
          Log LogError "" (Some (Error ("Unknown error code: " +:+ rendered)))]) /\
    (forall (api' : MojangRestAPI P) (e : Thrown) (p' : P),
        authenticate api' username password
                     (ConfigManager.getClientToken (config w)) (remote w)
        = (Throw e, p') ->
        fst (addMojangAccount queryJS api' username password w)
        = Rejected (DisplayableObject d)).
Proof.
  intros Hcall Hstatus Hcode.
  eexists. split; [reflexivity|]. split; [by rewrite Hcode|]. split.
  - unfold_run. cbn. rewrite Hcall. cbn.
    destruct (responseStatus response); [done|]. cbn.
    rewrite Hcode. cbn. unfold untouched. rewrite <- !app_assoc. reflexivity.
  - intros api' e p' Hthrow. unfold_run. cbn. rewrite Hthrow. reflexivity.
Qed.

(** C2 (what the code does): when the provider answers [validate] with a
    response whose status is not [SUCCESS], [validateSelected] runs off the
    end of the function: the promise is resolved with [undefined], nothing
    is rejected, no refresh is attempted and the configuration is left as it
    was. *)
Theorem validateSelected_provider_failure_resolves_undefined
        (w : World P) (current : ConfigManager.AuthAccount)
        (response : RestResponse bool) (p : P) :
  ConfigManager.getSelectedAccount (config w) = Some current ->
  validate_answer api current w = (Normal response, p) ->
  responseStatus response <> SUCCESS ->
  validateSelected api w
  = (Resolved None,
     untouched w p
       [CallValidate (ConfigManager.accessToken current)
                     (ConfigManager.getClientToken (config w))]).
Proof.
  intros Hsel Hcall Hstatus. unfold validate_answer in Hcall.
  unfold_run. cbn. rewrite Hsel. cbn. rewrite Hcall. cbn.
  destruct (responseStatus response); [done|]. reflexivity.
Qed.

(** C4 (amended): for an id that is not in the store, reading
    [accessToken] of the missing record throws; [removeMojangAccount]
    catches the [TypeError], logs it and rejects with that same raw error.
    The provider is not called and the configuration is left as it was. *)
Theorem removeMojangAccount_absent_rejects_raw (uuid : string) (w : World P) :
  ConfigManager.getAuthAccount uuid (config w) = None ->
  removeMojangAccount api uuid w
  = (Rejected (TypeError "Cannot read properties of undefined (reading 'accessToken')"),
     untouched w (remote w)
       [Log LogError "Error while removing account"
            (Some (TypeError "Cannot read properties of undefined (reading 'accessToken')"))]).
Proof.
  intros Habsent. unfold_run. cbn. rewrite Habsent. reflexivity.
Qed.

(** C7: when [validate] says the token is not valid and the response of
    the refresh call is not a success, [validateSelected] resolves with
    [false] (nothing is rejected or thrown); the configuration in memory and
    on disk is left as it was, so the selected account is still stored. *)
Theorem validateSelected_refresh_failure_resolves_false
        (w : World P) (current : ConfigManager.AuthAccount)
        (response : RestResponse bool) (p : P)
        (refreshResponse : RestResponse Session.t) (p' : P) :
  ConfigManager.getSelectedAccount (config w) = Some current ->
  validate_answer api current w = (Normal response, p) ->
  responseStatus response = SUCCESS ->
  truthy (data response) = false ->
  refresh api (ConfigManager.accessToken current)
          (ConfigManager.getClientToken (config w)) p
  = (Normal refreshResponse, p') ->
  responseStatus refreshResponse <> SUCCESS ->
  validateSelected api w
  = (Resolved (Some false),
     untouched w p'
       [CallValidate (ConfigManager.accessToken current)
                     (ConfigManager.getClientToken (config w));
        CallRefresh (ConfigManager.accessToken current)
                    (ConfigManager.getClientToken (config w));
        Log LogError "Error while validating selected profile:"
            (Some (RestError (error refreshResponse)));
        Log LogInfo "Account access token is invalid." None]) /\
  ConfigManager.getSelectedAccount (config (snd (validateSelected api w)))
  = Some current.
Proof.
  intros Hsel Hcall Hstatus Hinvalid Hrefresh Hfailed.
  unfold validate_answer in Hcall.
  assert (Hrun : validateSelected api w
    = (Resolved (Some false),
       untouched w p'
         [CallValidate (ConfigManager.accessToken current)
                       (ConfigManager.getClientToken (config w));
          CallRefresh (ConfigManager.accessToken current)
                      (ConfigManager.getClientToken (config w));
          Log LogError "Error while validating selected profile:"
              (Some (RestError (error refreshResponse)));
          Log LogInfo "Account access token is invalid." None])).
  { unfold_run. cbn. rewrite Hsel. cbn. rewrite Hcall. cbn.
    rewrite Hstatus. cbn. rewrite Hinvalid. cbn. rewrite Hrefresh. cbn.
    destruct (responseStatus refreshResponse); [done|]. cbn.
    unfold untouched. rewrite <- !app_assoc. reflexivity. }
  split; [exact Hrun|]. rewrite Hrun. exact Hsel.
Qed.

(** C5: for a stored id, [removeMojangAccount] resolves exactly when the
    provider answered [invalidate] with a successful response.  Then the
    record is deleted after that call (a lookup of the id finds nothing) and
    the deletion is saved.  When the call did not succeed (an error response
    or an exception) the promise is rejected and the configuration, with the
    record in it, is as before. *)
Theorem removeMojangAccount_deletes_iff_invalidated
        (uuid : string) (w : World P) (account : ConfigManager.AuthAccount) :
  ConfigManager.getAuthAccount uuid (config w) = Some account ->
  let answer := invalidate api (ConfigManager.accessToken account)
                           (ConfigManager.getClientToken (config w)) (remote w) in
  let result := removeMojangAccount api uuid w in
  (fst result = Resolved tt <-> succeeded (fst answer) = true) /\
  (succeeded (fst answer) = true ->
     ConfigManager.getAuthAccount uuid (config (snd result)) = None /\
     config (snd result) = ConfigManager.removeAuthAccount uuid (config w) /\
     disk (snd result) = config (snd result) /\
     trace (snd result)
     = (trace w ++ [CallInvalidate (ConfigManager.accessToken account)
                                   (ConfigManager.getClientToken (config w));
                    StoreRemove uuid; StoreSave])%list) /\
  (succeeded (fst answer) = false ->
     (exists reason, fst result = Rejected reason) /\
     config (snd result) = config w /\
     disk (snd result) = disk w /\
     ConfigManager.getAuthAccount uuid (config (snd result)) = Some account).
Proof.
  intros Hstored answer result. subst answer result.
  unfold_run. cbn. rewrite Hstored. cbn.
  destruct (invalidate api _ _ _) as [[response|e] p]; cbn.
  - destruct (responseStatus response); cbn.
    + split; [done|]. split; [|done]. intros _.
      split; [apply getAuthAccount_remove|]. split; [done|]. split; [done|].
      by rewrite <- !app_assoc.
    + split; [done|]. split; [done|]. intros _.
      split; [by eexists|]. done.
  - split; [done|]. split; [done|]. intros _. split; [by eexists|]. done.
Qed.

(** C6: in a well-formed store, when [validate] says the token is not
    valid and the refresh call succeeds with a session, [validateSelected]
    resolves with [true]; the selected account is still stored under the
    same id, differs from the old record only in its access token, which is
    now the one of the refresh response, the other records are as before,
    and the change is saved. *)
Theorem validateSelected_refresh_updates_token
        (w : World P) (current : ConfigManager.AuthAccount)
        (response : RestResponse bool) (p : P)
        (refreshResponse : RestResponse Session.t) (p' : P)
        (session : Session.t) :
  ConfigManager.well_formed (config w) ->
  ConfigManager.getSelectedAccount (config w) = Some current ->
  validate_answer api current w = (Normal response, p) ->
  responseStatus response = SUCCESS ->
  truthy (data response) = false ->
  refresh api (ConfigManager.accessToken current)
          (ConfigManager.getClientToken (config w)) p
  = (Normal refreshResponse, p') ->
  responseStatus refreshResponse = SUCCESS ->
  data refreshResponse = Some session ->
  let result := validateSelected api w in
  let refreshed :=
    ConfigManager.with_token (Session.accessToken session) current in
  fst result = Resolved (Some true) /\
  ConfigManager.getSelectedAccount (config (snd result)) = Some refreshed /\
  ConfigManager.getAuthAccount (ConfigManager.uuid current) (config (snd result))
  = Some refreshed /\
  ConfigManager.accessToken refreshed = Session.accessToken session /\
  ConfigManager.uuid refreshed = ConfigManager.uuid current /\
  (forall other, other <> ConfigManager.uuid current ->
     ConfigManager.getAuthAccount other (config (snd result))
     = ConfigManager.getAuthAccount other (config w)) /\
  disk (snd result) = config (snd result).
Proof.
  intros Hwf Hsel Hcall Hstatus Hinvalid Hrefresh Hrstatus Hrdata result refreshed.
  unfold validate_answer in Hcall.
  destruct (getSelectedAccount_stored _ _ Hwf Hsel) as [Hkey Hstored].
  assert (Hrun : result
    = (Resolved (Some true),
       {| config := ConfigManager.updateMojangAuthAccount
                      (ConfigManager.uuid current) (Session.accessToken session)
                      (config w);
          disk := ConfigManager.updateMojangAuthAccount
                    (ConfigManager.uuid current) (Session.accessToken session)
                    (config w);
          remote := p';
          trace := trace w ++
            [CallValidate (ConfigManager.accessToken current)
                          (ConfigManager.getClientToken (config w));
             CallRefresh (ConfigManager.accessToken current)
                         (ConfigManager.getClientToken (config w));
             StoreUpdate (ConfigManager.uuid current) (Session.accessToken session);
             StoreSave;
             Log LogInfo "Account access token validated." None] |})).
  { subst result. unfold_run. cbn. rewrite Hsel. cbn. rewrite Hcall. cbn.
    rewrite Hstatus. cbn. rewrite Hinvalid. cbn. rewrite Hrefresh. cbn.
    rewrite Hrstatus. cbn. rewrite Hrdata. cbn.
    by rewrite <- !app_assoc. }
  rewrite Hrun. cbn.
  split; [done|].
  split.
  { unfold ConfigManager.getSelectedAccount. cbn. rewrite Hkey.
    by apply (getAuthAccount_update _ _ (config w)). }
  split; [by apply getAuthAccount_update|].
  split; [done|]. split; [done|]. split; [|done].
  intros other Hother. by apply getAuthAccount_update_other.
Qed.

(** *** Repeated calls *)

(** One successful [addMojangAccount], step by step. *)
Lemma addMojangAccount_success_run
      (username password : string) (w : World P)
      (session : Session.t) (profile : Profile) :
  authenticates api username password w session profile ->
  let added :=
    ConfigManager.addMojangAuthAccount (id profile) (Session.accessToken session)
                                       username (name profile) (config w) in
  let stored :=
    match ConfigManager.getClientToken (config w) with
    | None => ConfigManager.setClientToken (Session.clientToken session) (snd added)
    | Some _ => snd added
    end in
  exists p,
    addMojangAccount queryJS api username password w
    = (Resolved (fst added),
       {| config := stored; disk := stored; remote := p;
          trace := trace w ++
            [CallAuthenticate username password
                              (ConfigManager.getClientToken (config w));
             ConsoleLog;
             StoreAdd (id profile) (Session.accessToken session) username
                      (name profile)] ++
            match ConfigManager.getClientToken (config w) with
            | None => [StoreSetClientToken (Session.clientToken session)]
            | Some _ => []
            end ++ [StoreSave] |}).
Proof.
  intros (response & Hanswer & Hstatus & Hdata & Hprofile) added stored.
  unfold authenticate_answer in Hanswer.
  destruct (authenticate api username password
              (ConfigManager.getClientToken (config w)) (remote w))
    as [answer p] eqn:Hcall.
  cbn in Hanswer. subst answer. exists p. subst added stored.
  unfold_run. cbn. rewrite Hcall. cbn. rewrite Hstatus. cbn.
  rewrite Hdata. cbn. rewrite Hprofile. cbn.
  unfold ConfigManager.getClientToken.
  destruct (ConfigManager.clientToken (config w)); cbn;
    by rewrite <- !app_assoc.
Qed.

(** Once the client token is set, successful calls leave it alone. *)
Lemma addMojangAccounts_keep_client_token (credentials : list (string * string)) :
  forall (w : World P) (sessions : list (Session.t * Profile)) (token : string),
    all_authenticate queryJS api credentials w sessions ->
    ConfigManager.getClientToken (config w) = Some token ->
    ConfigManager.getClientToken
      (config (snd (addMojangAccounts queryJS api credentials w))) = Some token /\
    exists events : list Event,
      trace (snd (addMojangAccounts queryJS api credentials w))
      = (trace w ++ events)%list /\
      count_events is_set_client_token events = 0.
Proof.
  induction credentials as [|[username password] rest IH];
    intros w sessions token Hall Htoken.
  - cbn. split; [done|]. exists []. by rewrite app_nil_r.
  - destruct sessions as [|[session profile] more]; [done|].
    destruct Hall as [Hfirst Hrest]. cbn.
    destruct (addMojangAccount_success_run _ _ _ _ _ Hfirst) as [p Hrun].
    rewrite Htoken in Hrun. rewrite Hrun in Hrest |- *. cbn in Hrest |- *.
    destruct (IH _ _ token Hrest) as (Hkept & events & Htrace & Hcount);
      [exact Htoken|].
    split; [exact Hkept|].
    eexists. split; [rewrite Htrace; cbn; rewrite <- app_assoc; reflexivity|].
    rewrite count_events_app, Hcount. reflexivity.
Qed.

(** Each successful call resolves with the account made from its session. *)
Lemma addMojangAccounts_yield (credentials : list (string * string)) :
  forall (w : World P) (sessions : list (Session.t * Profile)),
    all_authenticate queryJS api credentials w sessions ->
    Forall2 yields (fst (addMojangAccounts queryJS api credentials w)) sessions.
Proof.
  induction credentials as [|[username password] rest IH]; intros w sessions Hall.
  - destruct sessions; [constructor|done].
  - destruct sessions as [|[session profile] more]; [done|].
    destruct Hall as [Hfirst Hrest]. cbn. constructor; [|by apply IH].
    destruct (addMojangAccount_success_run _ _ _ _ _ Hfirst) as [p Hrun].
    rewrite Hrun. by eexists.
Qed.

(** C3: when every call of a sequence of [addMojangAccount] calls is
    answered with a successful authentication that has a selectable
    profile, every call resolves with an account whose id is the id of the
    profile and whose access token is the one of the session of that call;
    and if no client token was set before the first call, then over the
    whole sequence the client token is set exactly once, to the client
    token of the first session. *)
Theorem addMojangAccounts_success
        (credentials : list (string * string)) (w : World P)
        (sessions : list (Session.t * Profile)) :
  all_authenticate queryJS api credentials w sessions ->
  let run := addMojangAccounts queryJS api credentials w in
  Forall2 yields (fst run) sessions /\
  (ConfigManager.getClientToken (config w) = None ->
   forall first rest, sessions = first :: rest ->
     ConfigManager.getClientToken (config (snd run))
     = Some (Session.clientToken (fst first)) /\
     exists events : list Event,
       trace (snd run) = (trace w ++ events)%list /\
       count_events is_set_client_token events = 1).
Proof.
  intros Hall run. split; [by apply addMojangAccounts_yield|].
  intros Hunset [session profile] more ->. subst run.
  destruct credentials as [|[username password] rest]; [done|].
  destruct Hall as [Hfirst Hrest]. cbn.
  destruct (addMojangAccount_success_run _ _ _ _ _ Hfirst) as [p Hrun].
  rewrite Hunset in Hrun. rewrite Hrun in Hrest |- *. cbn in Hrest |- *.
  destruct (addMojangAccounts_keep_client_token rest _ _
              (Session.clientToken session) Hrest)
    as (Hkept & events & Htrace & Hcount); [done|].
  split; [exact Hkept|].
  eexists. split; [rewrite Htrace; cbn; rewrite <- app_assoc; reflexivity|].
  rewrite count_events_app, Hcount. reflexivity.
Qed.

(** One [validateSelected] on a token the provider finds valid. *)
Lemma validateSelected_valid_run (w : World P) :
  reports_valid api w ->
  exists current p,
    ConfigManager.getSelectedAccount (config w) = Some current /\
    validateSelected api w
    = (Resolved (Some true),
       untouched w p
         [CallValidate (ConfigManager.accessToken current)
                       (ConfigManager.getClientToken (config w));
          Log LogInfo "Account access token validated." None]).
Proof.
  intros (current & response & Hsel & Hanswer & Hstatus & Hdata).
  unfold validate_answer in Hanswer.
  destruct (validate api (ConfigManager.accessToken current)
              (ConfigManager.getClientToken (config w)) (remote w))
    as [answer p] eqn:Hcall.
  cbn in Hanswer. subst answer. exists current, p. split; [exact Hsel|].
  unfold_run. cbn. rewrite Hsel. cbn. rewrite Hcall. cbn.
  rewrite Hstatus. cbn. rewrite Hdata. cbn.
  unfold untouched. by rewrite <- !app_assoc.
Qed.

(** Whatever the provider answers, one [validateSelected] calls [refresh]
    at most once. *)
Lemma validateSelected_refresh_at_most_once (w : World P) :
  exists events : list Event,
    trace (snd (validateSelected api w)) = (trace w ++ events)%list /\
    count_events is_refresh events <= 1.
Proof.
  unfold_run. cbn.
  destruct (ConfigManager.getSelectedAccount (config w)) as [current|]; cbn;
    [|exists []; by rewrite app_nil_r; auto].
  destruct (validate api _ _ _) as [[response|e] p]; cbn;
    [|eexists; split; [reflexivity|cbn; lia]].
  destruct (responseStatus response); cbn;
    [|eexists; split; [reflexivity|cbn; lia]].
  destruct (truthy (data response)); cbn;
    [eexists; split; [rewrite <- !app_assoc; reflexivity|cbn; lia]|].
  destruct (refresh api _ _ _) as [[refreshResponse|e] p']; cbn;
    [|eexists; split; [rewrite <- !app_assoc; reflexivity|cbn; lia]].
  destruct (responseStatus refreshResponse); cbn;
    [|eexists; split; [rewrite <- !app_assoc; reflexivity|cbn; lia]].
  destruct (data refreshResponse) as [session|]; cbn;
    eexists; (split; [rewrite <- !app_assoc; reflexivity|cbn; lia]).
Qed.

(** C8: when the provider answers [validate] successfully with "valid"
    at each of [n] calls of [validateSelected] in a row, every call resolves
    with [true], the configuration in memory and on disk is the same after
    the calls as before, and the calls made no store mutation and no refresh
    call; and whatever the provider answers, a single [validateSelected]
    calls [refresh] at most once. *)
Theorem validateSelected_valid_idempotent (n : nat) (w : World P) :
  reports_valid_times api n w ->
  let run := validateSelected_times api n w in
  fst run = replicate n (Resolved (Some true)) /\
  config (snd run) = config w /\
  disk (snd run) = disk w /\
  (exists events : list Event,
      trace (snd run) = (trace w ++ events)%list /\
      count_events is_store_mutation events = 0 /\
      count_events is_refresh events = 0) /\
  (forall w0 : World P,
      exists events : list Event,
        trace (snd (validateSelected api w0)) = (trace w0 ++ events)%list /\
        count_events is_refresh events <= 1).
Proof.
  intros Hvalid run. subst run.
  cut (fst (validateSelected_times api n w) = replicate n (Resolved (Some true)) /\
       config (snd (validateSelected_times api n w)) = config w /\
       disk (snd (validateSelected_times api n w)) = disk w /\
       exists events : list Event,
         trace (snd (validateSelected_times api n w)) = (trace w ++ events)%list /\
         count_events is_store_mutation events = 0 /\
         count_events is_refresh events = 0).
  { intros (? & ? & ? & ?). repeat split; try done.
    apply validateSelected_refresh_at_most_once. }
  revert w Hvalid. induction n as [|n IH]; intros w Hvalid.
  - cbn. repeat split. exists []. by rewrite app_nil_r.
  - destruct Hvalid as [Hnow Hlater]. cbn.
    destruct (validateSelected_valid_run w Hnow) as (current & p & Hsel & Hrun).
    rewrite Hrun in Hlater |- *. cbn in Hlater |- *.
    destruct (IH _ Hlater) as (Hresults & Hconfig & Hdisk & events & Htrace & Hm & Hr).
    cbn in Hconfig, Hdisk, Htrace.
    split; [by rewrite Hresults|]. split; [done|]. split; [done|].
    eexists. split; [rewrite Htrace; rewrite <- app_assoc; reflexivity|].
    rewrite !count_events_app, Hm, Hr. done.
Qed.

End Lifecycle.

(** ** Well-formedness is kept *)

Section Keeps.
Context {P : Type}.
Variable I : ConfigManager.Config -> Prop.

Lemma keeps_ret {A} (a : A) : keeps (P:=P) I (Run.ret a).
Proof. intros w Hw. exact Hw. Qed.

Lemma keeps_throw {A} (e : Thrown) : keeps (P:=P) I (Run.throw (A:=A) e).
Proof. intros w Hw. exact Hw. Qed.

Lemma keeps_lift {A} (c : Completion A) : keeps (P:=P) I (Run.lift c).
Proof. intros w Hw. exact Hw. Qed.

Lemma keeps_emit (e : Event) : keeps (P:=P) I (Run.emit e).
Proof. intros w Hw. exact Hw. Qed.

Lemma keeps_read {A} (f : ConfigManager.Config -> A) : keeps (P:=P) I (Run.read f).
Proof. intros w Hw. exact Hw. Qed.

Lemma keeps_call {A} (f : P -> Completion A * P) : keeps I (Run.call f).
Proof. intros w Hw. unfold Run.call. by destruct (f (remote w)). Qed.

Lemma keeps_commit : keeps (P:=P) I Run.commit.
Proof. intros w Hw. exact Hw. Qed.

Lemma keeps_update {A} (f : ConfigManager.Config -> A * ConfigManager.Config) :
  (forall c, I c -> I (snd (f c))) -> keeps (P:=P) I (Run.update f).
Proof. intros Hf w Hw. by apply Hf. Qed.

Lemma keeps_write (f : ConfigManager.Config -> ConfigManager.Config) :
  (forall c, I c -> I (f c)) -> keeps (P:=P) I (Run.write f).
Proof. intros Hf. by apply keeps_update. Qed.

Lemma keeps_property {O A} (o : option O) (field : string) (get : O -> A) :
  keeps (P:=P) I (Run.property o field get).
Proof. destruct o; [apply keeps_ret|apply keeps_throw]. Qed.

Lemma keeps_bind {A B} (m : Run.M A) (k : A -> Run.M B) :
  keeps I m -> (forall a, keeps I (k a)) -> keeps (P:=P) I (Run.bind m k).
Proof.
  intros Hm Hk w Hw. unfold Run.bind. specialize (Hm w Hw).
  destruct (m w) as [[a|e] w']; cbn in Hm; [by apply Hk|exact Hm].
Qed.

Lemma keeps_try_catch {A} (body : Run.M A) (handler : Thrown -> Run.M A) :
  keeps I body -> (forall e, keeps I (handler e)) ->
  keeps (P:=P) I (Run.try_catch body handler).
Proof.
  intros Hbody Hhandler w Hw. unfold Run.try_catch. specialize (Hbody w Hw).
  destruct (body w) as [[a|e] w']; cbn in Hbody; [exact Hbody|by apply Hhandler].
Qed.

Lemma keeps_async {A} (body : Run.M (Returned A)) :
  keeps I body -> keeps (P:=P) I (async body).
Proof.
  intros Hbody w Hw. unfold async. specialize (Hbody w Hw).
  by destruct (body w) as [[[a|p]|e] w'].
Qed.

Lemma keeps_await {A} (p : World P -> Promise A * World P) :
  keeps I p -> keeps I (await p).
Proof.
  intros Hp w Hw. unfold await. specialize (Hp w Hw).
  by destruct (p w) as [[a|r] w'].
Qed.
End Keeps.

Ltac keeps_step :=
  first
    [ apply keeps_async | apply keeps_await | apply keeps_try_catch
    | apply keeps_bind | apply keeps_ret | apply keeps_throw | apply keeps_lift
    | apply keeps_emit | apply keeps_read | apply keeps_call | apply keeps_commit
    | apply keeps_property | apply keeps_write | apply keeps_update
    | match goal with
      | |- keeps _ (match ?x with _ => _ end) => destruct x
      end
    | intro ].

Section Invariant.
Variable queryJS : string -> string.
Context {P : Type}.
Variable api : MojangRestAPI P.

Lemma addMojangAccount_well_formed (username password : string) :
  keeps ConfigManager.well_formed (addMojangAccount queryJS api username password).
Proof.
  unfold addMojangAccount, addMojangAccount_body, reject_displayable,
    ConfigManager_getClientToken, MojangRestAPI_authenticate, console_log,
    ConfigManager_addMojangAuthAccount, ConfigManager_setClientToken,
    ConfigManager_save, log_error.
  repeat keeps_step;
    auto using well_formed_setClientToken, well_formed_addMojangAuthAccount.
Qed.

Lemma removeMojangAccount_well_formed (uuid : string) :
  keeps ConfigManager.well_formed (removeMojangAccount api uuid).
Proof.
  unfold removeMojangAccount, removeMojangAccount_body,
    ConfigManager_getAuthAccount, ConfigManager_getClientToken,
    MojangRestAPI_invalidate, ConfigManager_removeAuthAccount,
    ConfigManager_save, log_error.
  repeat keeps_step; auto using well_formed_removeAuthAccount.
Qed.

Lemma validateSelected_well_formed :
  keeps ConfigManager.well_formed (validateSelected api).
Proof.
  unfold validateSelected, validateSelectedMojangAccount,
    validateSelectedMojangAccount_body, ConfigManager_getSelectedAccount,
    ConfigManager_getClientToken, MojangRestAPI_validate, MojangRestAPI_refresh,
    ConfigManager_updateMojangAuthAccount, ConfigManager_save, log_error, log_info.
  repeat keeps_step; auto using well_formed_updateMojangAuthAccount.
Qed.

End Invariant.

(** ** The properties on sample collaborators *)

Lemma Demo_steve_config_well_formed : ConfigManager.well_formed Demo.steve_config.
Proof.
  split; cbn.
  - intros k a Hk. apply lookup_singleton_Some in Hk as [<- <-]. reflexivity.
  - intros k [= <-]. rewrite lookup_singleton_eq. by eexists.
Qed.

Lemma validateSelected_provider_failure_resolves_undefined_witness :
  validateSelected (Demo.failing (Member ERROR_UNREACHABLE)) Demo.logged_in
  = (Resolved None,
     untouched Demo.logged_in 2 [CallValidate "access-steve" (Some "client-steve")]).
Proof.
  apply (validateSelected_provider_failure_resolves_undefined
           (Demo.failing (Member ERROR_UNREACHABLE)) Demo.logged_in Demo.steve
           (Demo.failed (Member ERROR_UNREACHABLE)) 2).
  - reflexivity.
  - reflexivity.
  - discriminate.
Defined.

Lemma addMojangAccounts_success_witness :
  let run := addMojangAccounts Demo.catalogue (Demo.service true true true)
               [("alex", "pw-a"); ("steve", "pw-s")] Demo.fresh in
  Forall2 yields (fst run)
          [(Demo.session_for "alex" true, {| id := "uuid-alex"; name := "alex" |});
           (Demo.session_for "steve" true, {| id := "uuid-steve"; name := "steve" |})] /\
  (ConfigManager.getClientToken (config Demo.fresh) = None ->
   forall first rest,
     [(Demo.session_for "alex" true, {| id := "uuid-alex"; name := "alex" |});
      (Demo.session_for "steve" true, {| id := "uuid-steve"; name := "steve" |})]
     = first :: rest ->
     ConfigManager.getClientToken (config (snd run))
     = Some (Session.clientToken (fst first)) /\
     exists events : list Event,
       trace (snd run) = (trace Demo.fresh ++ events)%list /\
       count_events is_set_client_token events = 1).
Proof.
  apply (addMojangAccounts_success Demo.catalogue (Demo.service true true true)
           [("alex", "pw-a"); ("steve", "pw-s")] Demo.fresh).
  split; [|split; [|exact I]].
  - eexists. repeat split; reflexivity.
  - eexists. repeat split; reflexivity.
Defined.

Lemma removeMojangAccount_absent_not_mapped :
  ~ absent_removal_is_mapped (Demo.service true true true) "nobody" Demo.logged_in.
Proof.
  intros Hclaim. destruct (Hclaim eq_refl) as (d & Hrejected & _).
  vm_compute in Hrejected. discriminate Hrejected.
Qed.

Lemma removeMojangAccount_absent_rejects_raw_witness :
  removeMojangAccount (Demo.service true true true) "nobody" Demo.logged_in
  = (Rejected (TypeError "Cannot read properties of undefined (reading 'accessToken')"),
     untouched Demo.logged_in 1
       [Log LogError "Error while removing account"
            (Some (TypeError "Cannot read properties of undefined (reading 'accessToken')"))]).
Proof.
  apply (removeMojangAccount_absent_rejects_raw (Demo.service true true true)
           "nobody" Demo.logged_in).
  reflexivity.
Defined.

Lemma removeMojangAccount_deletes_iff_invalidated_witness :
  let answer := invalidate (Demo.service true true true) "access-steve"
                           (Some "client-steve") 1 in
  let result := removeMojangAccount (Demo.service true true true) "uuid-steve"
                                    Demo.logged_in in
  (fst result = Resolved tt <-> succeeded (fst answer) = true) /\
  (succeeded (fst answer) = true ->
     ConfigManager.getAuthAccount "uuid-steve" (config (snd result)) = None /\
     config (snd result)
     = ConfigManager.removeAuthAccount "uuid-steve" (config Demo.logged_in) /\
     disk (snd result) = config (snd result) /\
     trace (snd result)
     = (trace Demo.logged_in ++
        [CallInvalidate "access-steve" (Some "client-steve");
         StoreRemove "uuid-steve"; StoreSave])%list) /\
  (succeeded (fst answer) = false ->
     (exists reason, fst result = Rejected reason) /\
     config (snd result) = config Demo.logged_in /\
     disk (snd result) = disk Demo.logged_in /\
     ConfigManager.getAuthAccount "uuid-steve" (config (snd result)) = Some Demo.steve).
Proof.
  apply (removeMojangAccount_deletes_iff_invalidated (Demo.service true true true)
           "uuid-steve" Demo.logged_in Demo.steve).
  reflexivity.
Defined.

Lemma validateSelected_refresh_updates_token_witness :
  let result := validateSelected (Demo.service true false true) Demo.logged_in in
  let refreshed := ConfigManager.with_token "access-renewed" Demo.steve in
  fst result = Resolved (Some true) /\
  ConfigManager.getSelectedAccount (config (snd result)) = Some refreshed /\
  ConfigManager.getAuthAccount "uuid-steve" (config (snd result)) = Some refreshed /\
  ConfigManager.accessToken refreshed = "access-renewed" /\
  ConfigManager.uuid refreshed = "uuid-steve" /\
  (forall other, other <> "uuid-steve" ->
     ConfigManager.getAuthAccount other (config (snd result))
     = ConfigManager.getAuthAccount other (config Demo.logged_in)) /\
  disk (snd result) = config (snd result).
Proof.
  apply (validateSelected_refresh_updates_token (Demo.service true false true)
           Demo.logged_in Demo.steve (Demo.ok false) 2
           (Demo.ok (Demo.session_for "renewed" true)) 3
           (Demo.session_for "renewed" true)).
  - exact Demo_steve_config_well_formed.
  - reflexivity.
  - reflexivity.
  - reflexivity.
  - reflexivity.
  - reflexivity.
  - reflexivity.
  - reflexivity.
Defined.

Lemma validateSelected_refresh_failure_resolves_false_witness :
  validateSelected (Demo.service true false false) Demo.logged_in
  = (Resolved (Some false),
     untouched Demo.logged_in 3
       [CallValidate "access-steve" (Some "client-steve");
        CallRefresh "access-steve" (Some "client-steve");
        Log LogError "Error while validating selected profile:"
            (Some (RestError (Some "request failed")));
        Log LogInfo "Account access token is invalid." None]) /\
  ConfigManager.getSelectedAccount
    (config (snd (validateSelected (Demo.service true false false) Demo.logged_in)))
  = Some Demo.steve.
Proof.
  apply (validateSelected_refresh_failure_resolves_false
           (Demo.service true false false) Demo.logged_in Demo.steve
           (Demo.ok false) 2 (Demo.failed (Member ERROR_INVALID_TOKEN)) 3).
  - reflexivity.
  - reflexivity.
  - reflexivity.
  - reflexivity.
  - reflexivity.
  - discriminate.
Defined.

Lemma validateSelected_valid_idempotent_witness :
  let run := validateSelected_times (Demo.service true true true) 3 Demo.logged_in in
  fst run = replicate 3 (Resolved (Some true)) /\
  config (snd run) = config Demo.logged_in /\
  disk (snd run) = disk Demo.logged_in /\
  (exists events : list Event,
      trace (snd run) = (trace Demo.logged_in ++ events)%list /\
      count_events is_store_mutation events = 0 /\
      count_events is_refresh events = 0) /\
  (forall w0 : World nat,
      exists events : list Event,
        trace (snd (validateSelected (Demo.service true true true) w0))
        = (trace w0 ++ events)%list /\
        count_events is_refresh events <= 1).
Proof.
  apply (validateSelected_valid_idempotent (Demo.service true true true) 3
           Demo.logged_in).
  repeat split; eexists _, _; repeat split; reflexivity.
Defined.

Lemma addMojangAccount_no_profile_witness :
  exists d,
    mojangErrorDisplayable Demo.catalogue (Member ERROR_NOT_PAID) = Normal d /\
    addMojangAccount Demo.catalogue (Demo.service false true true)
                     "alex" "pw-a" Demo.fresh
    = (Rejected (DisplayableObject d),
       untouched Demo.fresh 1 [CallAuthenticate "alex" "pw-a" None; ConsoleLog]) /\
    count_events is_store_mutation
      [CallAuthenticate "alex" "pw-a" None; ConsoleLog] = 0.
Proof.
  apply (addMojangAccount_no_profile Demo.catalogue (Demo.service false true true)
           "alex" "pw-a" Demo.fresh
           (Demo.ok (Demo.session_for "alex" false)) 1
           (Demo.session_for "alex" false)).
  - reflexivity.
  - reflexivity.
  - reflexivity.
  - reflexivity.
Defined.

Lemma addMojangAccount_unrecognized_code_witness :
  exists d,
    mojangErrorDisplayable Demo.catalogue (Member UNKNOWN) = Normal d /\
    mojangErrorDisplayable Demo.catalogue (Foreign "42")
    = Throw (Error "Unknown error code: 42") /\
    addMojangAccount Demo.catalogue (Demo.failing (Foreign "42"))
                     "alex" "pw-a" Demo.fresh
    = (Rejected (DisplayableObject d),
       untouched Demo.fresh 1
         [CallAuthenticate "alex" "pw-a" None; ConsoleLog;
          Log LogError "" (Some (Error "Unknown error code: 42"))]) /\
    (forall (api' : MojangRestAPI nat) (e : Thrown) (p' : nat),
        authenticate api' "alex" "pw-a" None 0 = (Throw e, p') ->
        fst (addMojangAccount Demo.catalogue api' "alex" "pw-a" Demo.fresh)
        = Rejected (DisplayableObject d)).
Proof.
  apply (addMojangAccount_unrecognized_code Demo.catalogue
           (Demo.failing (Foreign "42")) "alex" "pw-a" Demo.fresh
           (Demo.failed (Foreign "42")) 1 "42").
  - reflexivity.
  - discriminate.
  - reflexivity.
Defined.

(** * Further properties of the module *)

(** ** addMojangAccount *)

Section AddAccount.
Variable queryJS : string -> string.
Context {P : Type}.
Variable api : MojangRestAPI P.

(** X1: an error response with a code of the enumeration is rejected with
    the displayable object of that very code, and nothing but the call and
    the console output happens. *)
Theorem addMojangAccount_provider_error_mapped
        (username password : string) (w : World P)
        (response : RestResponse Session.t) (p : P) (code : MojangErrorCode) :
  authenticate api username password
               (ConfigManager.getClientToken (config w)) (remote w)
  = (Normal response, p) ->
  responseStatus response <> SUCCESS ->
  mojangErrorCode response = Member code ->
  exists d,
    mojangErrorDisplayable queryJS (Member code) = Normal d /\
    addMojangAccount queryJS api username password w
    = (Rejected (DisplayableObject d),
       untouched w p
         [CallAuthenticate username password (ConfigManager.getClientToken (config w));
          ConsoleLog]).
Proof.
  intros Hcall Hstatus Hcode.
  destruct (mojangErrorDisplayable_keys queryJS code) as (tk & dk & _ & _ & Hd).
  eexists. split; [exact Hd|].
  unfold_run. cbn. rewrite Hcall. cbn.
  destruct (responseStatus response); [done|]. cbn.
  rewrite Hcode, Hd. cbn. unfold untouched. by rewrite <- !app_assoc.
Qed.

(** X2: when the call of the provider throws, the thrown value is logged
    and the promise is rejected with the displayable object of [UNKNOWN]; the
    thrown value itself does not reach the caller and the configuration is
    left as it was. *)
Theorem addMojangAccount_thrown_is_unknown
        (username password : string) (w : World P) (e : Thrown) (p : P) :
  authenticate api username password
               (ConfigManager.getClientToken (config w)) (remote w)
  = (Throw e, p) ->
  addMojangAccount queryJS api username password w
  = (Rejected (DisplayableObject
                 {| title := queryJS "auth.mojang.error.unknownErrorTitle";
                    desc := queryJS "auth.mojang.error.unknownErrorDesc" |}),
     untouched w p
       [CallAuthenticate username password (ConfigManager.getClientToken (config w));
        Log LogError "" (Some e)]).
Proof.
  intros Hcall. unfold_run. cbn. rewrite Hcall. cbn.
  unfold untouched. by rewrite <- !app_assoc.
Qed.


(** X4: whatever the provider does, a rejection of [addMojangAccount]
    carries the displayable object of a member of the enumeration: no raw
    error, response or exception is handed to the caller. *)
Theorem addMojangAccount_rejects_only_displayable
        (username password : string) (w : World P) (r : Thrown) :
  fst (addMojangAccount queryJS api username password w) = Rejected r ->
  exists code d,
    mojangErrorDisplayable queryJS (Member code) = Normal d /\
    r = DisplayableObject d.
Proof.
  unfold_run. cbn.
  destruct (authenticate api _ _ _ _) as [[response|e] p]; cbn.
  - destruct (responseStatus response); cbn.
    + destruct (data response) as [session|]; cbn.
      * destruct (Session.selectedProfile session) as [profile|]; cbn.
        -- destruct (ConfigManager.clientToken (config w)); cbn; discriminate.
        -- intros [= <-]. by exists ERROR_NOT_PAID; eexists.
      * intros [= <-]. by exists UNKNOWN; eexists.
    + destruct (mojangErrorCode response) as [code|rendered]; cbn.
      * destruct (mojangErrorDisplayable_keys queryJS code) as (tk & dk & _ & _ & Hd).
        rewrite Hd. cbn. intros [= <-]. by exists code; eexists.
      * intros [= <-]. by exists UNKNOWN; eexists.
  - intros [= <-]. by exists UNKNOWN; eexists.
Qed.


(** X6: a client token that is already stored is the one sent to the
    provider, and no outcome of [addMojangAccount] replaces it. *)
Theorem addMojangAccount_keeps_client_token
        (username password : string) (w : World P) (token : string) :
  ConfigManager.getClientToken (config w) = Some token ->
  ConfigManager.getClientToken
    (config (snd (addMojangAccount queryJS api username password w))) = Some token /\
  exists events : list Event,
    trace (snd (addMojangAccount queryJS api username password w))
    = (trace w ++ CallAuthenticate username password (Some token) :: events)%list /\
    count_events is_set_client_token events = 0 /\
    count_events is_provider_call events = 0.
Proof.
  intros Htoken. unfold_run. cbn. rewrite !Htoken.
  destruct (authenticate api _ _ _ _) as [[response|e] p]; cbn.
  - destruct (responseStatus response); cbn.
    + destruct (data response) as [session|]; cbn.
      * destruct (Session.selectedProfile session) as [profile|]; cbn.
        -- unfold ConfigManager.getClientToken in Htoken. rewrite Htoken. cbn.
           split; [done|]. eexists. by rewrite <- !app_assoc.
        -- split; [done|]. eexists. by rewrite <- !app_assoc.
      * split; [done|]. eexists. by rewrite <- !app_assoc.
    + destruct (mojangErrorDisplayable queryJS (mojangErrorCode response)); cbn;
        (split; [done|]); eexists; by rewrite <- !app_assoc.
  - split; [done|]. eexists. by rewrite <- !app_assoc.
Qed.

(** X7: after a successful [addMojangAccount] the account that was
    returned is the one found in the store under the id of the profile, it
    carries the user name that was typed in and the name of the profile, and
    the configuration has been saved. *)
Theorem addMojangAccount_stores_and_saves
        (username password : string) (w : World P)
        (session : Session.t) (profile : Profile) :
  authenticates api username password w session profile ->
  let result := addMojangAccount queryJS api username password w in
  exists account,
    fst result = Resolved account /\
    ConfigManager.getAuthAccount (id profile) (config (snd result)) = Some account /\
    ConfigManager.username account = username /\
    ConfigManager.displayName account = name profile /\
    saved (snd result).
Proof.
  intros Hauth result. subst result.
  destruct (addMojangAccount_success_run queryJS api _ _ _ _ _ Hauth) as [p Hrun].
  rewrite Hrun. cbn. eexists. split; [reflexivity|].
  split; [|by repeat split].
  unfold ConfigManager.getAuthAccount.
  destruct (ConfigManager.getClientToken (config w)); cbn; apply lookup_insert_eq.
Qed.

End AddAccount.

(** ** removeMojangAccount *)

Section RemoveAccount.
Context {P : Type}.
Variable api : MojangRestAPI P.

(** X8: for a stored account, an error response to [invalidate] is logged
    and the promise is rejected with the [error] field of the response as it
    is; it is not turned into a displayable object. *)
Theorem removeMojangAccount_error_response_is_raw
        (uuid : string) (w : World P) (account : ConfigManager.AuthAccount)
        (response : RestResponse unit) (p : P) :
  ConfigManager.getAuthAccount uuid (config w) = Some account ->
  invalidate api (ConfigManager.accessToken account)
             (ConfigManager.getClientToken (config w)) (remote w)
  = (Normal response, p) ->
  responseStatus response <> SUCCESS ->
  removeMojangAccount api uuid w
  = (Rejected (RestError (error response)),
     untouched w p
       [CallInvalidate (ConfigManager.accessToken account)
                       (ConfigManager.getClientToken (config w));
        Log LogError "Error while removing account"
            (Some (RestError (error response)))]).
Proof.
  intros Hstored Hcall Hstatus. unfold_run. cbn. rewrite Hstored. cbn.
  rewrite Hcall. cbn. destruct (responseStatus response); [done|]. cbn.
  unfold untouched. by rewrite <- !app_assoc.
Qed.

(** X9: for a stored account, a value thrown by the [invalidate] call is
    caught, logged and handed to the caller unchanged as the reason of the
    rejection; the account stays in the store. *)
Theorem removeMojangAccount_thrown_is_rethrown
        (uuid : string) (w : World P) (account : ConfigManager.AuthAccount)
        (e : Thrown) (p : P) :
  ConfigManager.getAuthAccount uuid (config w) = Some account ->
  invalidate api (ConfigManager.accessToken account)
             (ConfigManager.getClientToken (config w)) (remote w)
  = (Throw e, p) ->
  removeMojangAccount api uuid w
  = (Rejected e,
     untouched w p
       [CallInvalidate (ConfigManager.accessToken account)
                       (ConfigManager.getClientToken (config w));
        Log LogError "Error while removing account" (Some e)]) /\
  ConfigManager.getAuthAccount uuid (config (snd (removeMojangAccount api uuid w)))
  = Some account.
Proof.
  intros Hstored Hcall.
  assert (Hrun : removeMojangAccount api uuid w
    = (Rejected e,
       untouched w p
         [CallInvalidate (ConfigManager.accessToken account)
                         (ConfigManager.getClientToken (config w));
          Log LogError "Error while removing account" (Some e)])).
  { unfold_run. cbn. rewrite Hstored. cbn. rewrite Hcall. cbn.
    unfold untouched. by rewrite <- !app_assoc. }
  split; [exact Hrun|]. by rewrite Hrun.
Qed.


End RemoveAccount.

(** ** validateSelected *)

(** An [async] function that only returns what it awaited behaves as the
    function it awaits. *)
Lemma async_return_await {P A} (f : World P -> Promise A * World P) (w : World P) :
  async (let* result := await f in Run.ret (ReturnValue result)) w = f w.
Proof.
  unfold async, await, Run.bind, Run.ret. by destruct (f w) as [[a|r] w'].
Qed.

Section ValidateSelected.
Context {P : Type}.
Variable api : MojangRestAPI P.

(** X11: without a selected account the read of [accessToken] throws
    before anything else is done: the promise is rejected with the raw
    [TypeError], the provider is not called, nothing is logged and nothing is
    changed. *)
Theorem validateSelected_without_selection (w : World P) :
  ConfigManager.getSelectedAccount (config w) = None ->
  validateSelected api w
  = (Rejected (TypeError "Cannot read properties of undefined (reading 'accessToken')"),
     w).
Proof.
  intros Hnone. unfold_run. cbn. rewrite Hnone. reflexivity.
Qed.

(** X12: a value thrown by the [validate] call is not caught: the promise
    is rejected with it, no refresh is attempted and the configuration is
    left as it was. *)
Theorem validateSelected_validate_throws
        (w : World P) (current : ConfigManager.AuthAccount) (e : Thrown) (p : P) :
  ConfigManager.getSelectedAccount (config w) = Some current ->
  validate_answer api current w = (Throw e, p) ->
  validateSelected api w
  = (Rejected e,
     untouched w p
       [CallValidate (ConfigManager.accessToken current)
                     (ConfigManager.getClientToken (config w))]).
Proof.
  intros Hsel Hcall. unfold validate_answer in Hcall.
  unfold_run. cbn. rewrite Hsel. cbn. rewrite Hcall. reflexivity.
Qed.

(** X13: when the token is not valid and the refresh call throws, the
    thrown value is not caught: the promise is rejected with it, the stored
    account is not updated and nothing is saved. *)
Theorem validateSelected_refresh_throws
        (w : World P) (current : ConfigManager.AuthAccount)
        (response : RestResponse bool) (p : P) (e : Thrown) (p' : P) :
  ConfigManager.getSelectedAccount (config w) = Some current ->
  validate_answer api current w = (Normal response, p) ->
  responseStatus response = SUCCESS ->
  truthy (data response) = false ->
  refresh api (ConfigManager.accessToken current)
          (ConfigManager.getClientToken (config w)) p
  = (Throw e, p') ->
  validateSelected api w
  = (Rejected e,
     untouched w p'
       [CallValidate (ConfigManager.accessToken current)
                     (ConfigManager.getClientToken (config w));
        CallRefresh (ConfigManager.accessToken current)
                    (ConfigManager.getClientToken (config w))]).
Proof.
  intros Hsel Hcall Hstatus Hinvalid Hrefresh. unfold validate_answer in Hcall.
  unfold_run. cbn. rewrite Hsel. cbn. rewrite Hcall. cbn.
  rewrite Hstatus. cbn. rewrite Hinvalid. cbn. rewrite Hrefresh. cbn.
  unfold untouched. by rewrite <- !app_assoc.
Qed.



(** X16: the exported [validateSelected] is [validateSelectedMojangAccount]
    seen through one more [async]/[await]: same settlement of the promise,
    resolved or rejected, and same effects, in every world. *)
Theorem validateSelected_is_validateSelectedMojangAccount (w : World P) :
  validateSelected api w = validateSelectedMojangAccount api w.
Proof. unfold validateSelected. apply async_return_await. Qed.

(** X17: with a selected account, the first thing [validateSelected] does
    is to present the stored access token and the stored client token to
    [validate]; the only other call of the provider it can make is one
    [refresh], with the same two tokens. *)
Theorem validateSelected_provider_calls
        (w : World P) (current : ConfigManager.AuthAccount) :
  ConfigManager.getSelectedAccount (config w) = Some current ->
  exists rest : list Event,
    trace (snd (validateSelected api w))
    = (trace w ++
       CallValidate (ConfigManager.accessToken current)
                    (ConfigManager.getClientToken (config w)) :: rest)%list /\
    count_events is_provider_call rest <= 1 /\
    (forall e, In e rest -> is_provider_call e = true ->
       e = CallRefresh (ConfigManager.accessToken current)
                       (ConfigManager.getClientToken (config w))).
Proof.
  intros Hsel. unfold_run. cbn. rewrite Hsel. cbn.
  assert (Hnone : forall e : Event, In e [] -> is_provider_call e = true ->
            e = CallRefresh (ConfigManager.accessToken current)
                            (ConfigManager.getClientToken (config w)))
    by (intros e []).
  destruct (validate api _ _ _) as [[response|e] p]; cbn;
    [|exists []; split; [done|]; split; [cbn; lia|exact Hnone]].
  destruct (responseStatus response); cbn;
    [|exists []; split; [done|]; split; [cbn; lia|exact Hnone]].
  destruct (truthy (data response)); cbn.
  { eexists. split; [by rewrite <- !app_assoc|]. split; [cbn; lia|].
    cbn. intros e [<-|[]]. discriminate. }
  destruct (refresh api _ _ _) as [[refreshResponse|e] p']; cbn.
  2: { eexists. split; [by rewrite <- !app_assoc|]. split; [cbn; lia|].
       cbn. intros e0 [<-|[]]. done. }
  destruct (responseStatus refreshResponse); cbn.
  2: { eexists. split; [by rewrite <- !app_assoc|]. split; [cbn; lia|].
       cbn. intros e [<-|[<-|[<-|[]]]]; done. }
  destruct (data refreshResponse) as [session|]; cbn.
  - eexists. split; [by rewrite <- !app_assoc|]. split; [cbn; lia|].
    cbn. intros e [<-|[<-|[<-|[<-|[]]]]]; done.
  - eexists. split; [by rewrite <- !app_assoc|]. split; [cbn; lia|].
    cbn. intros e [<-|[]]. done.
Qed.

End ValidateSelected.

(** ** Saving *)

Section Saving.
Variable queryJS : string -> string.
Context {P : Type}.
Variable api : MojangRestAPI P.


End Saving.

(** ** The table of the error mapper *)

(** X19: no two members of the enumeration share a catalogue key: with a
    catalogue that gives different keys different texts, two codes whose
    displayable objects have the same title, or the same description, are the
    same code. *)
Theorem mojangErrorDisplayable_keys_distinct
        (queryJS : string -> string) (code1 code2 : MojangErrorCode)
        (d1 d2 : Displayable) :
  (forall key1 key2, queryJS key1 = queryJS key2 -> key1 = key2) ->
  mojangErrorDisplayable queryJS (Member code1) = Normal d1 ->
  mojangErrorDisplayable queryJS (Member code2) = Normal d2 ->
  title d1 = title d2 \/ desc d1 = desc d2 ->
  code1 = code2.
Proof.
  intros Hinj H1 H2 Hsame.
  destruct code1, code2; try reflexivity;
    cbn in H1, H2; unfold displayable in H1, H2;
    injection H1 as <-; injection H2 as <-; cbn in Hsame;
    destruct Hsame as [Hsame|Hsame]; apply Hinj in Hsame; discriminate Hsame.
Qed.

(** ** Calls in sequence *)

Section Composition.
Variable queryJS : string -> string.
Context {P : Type}.
Variable api : MojangRestAPI P.

(** What a successful [addMojangAccount] leaves behind. *)
Lemma addMojangAccount_success_stored
      (username password : string) (w : World P)
      (session : Session.t) (profile : Profile) :
  authenticates api username password w session profile ->
  let result := addMojangAccount queryJS api username password w in
  exists account,
    fst result = Resolved account /\
    ConfigManager.getAuthAccount (id profile) (config (snd result)) = Some account /\
    ConfigManager.accessToken account = Session.accessToken session /\
    ConfigManager.getClientToken (config (snd result))
    = Some (match ConfigManager.getClientToken (config w) with
            | Some token => token
            | None => Session.clientToken session
            end).
Proof.
  intros Hauth result. subst result.
  destruct (addMojangAccount_success_run queryJS api _ _ _ _ _ Hauth) as [p Hrun].
  rewrite Hrun. cbn. eexists. split; [reflexivity|].
  unfold ConfigManager.getAuthAccount, ConfigManager.getClientToken.
  destruct (ConfigManager.clientToken (config w)) eqn:Htoken; cbn;
    (split; [apply lookup_insert_eq|]); done.
Qed.

(** A successful [removeMojangAccount], step by step. *)
Lemma removeMojangAccount_success_run
      (uuid : string) (w : World P) (account : ConfigManager.AuthAccount) :
  ConfigManager.getAuthAccount uuid (config w) = Some account ->
  succeeded (fst (invalidate api (ConfigManager.accessToken account)
                             (ConfigManager.getClientToken (config w)) (remote w)))
  = true ->
  exists p,
    removeMojangAccount api uuid w
    = (Resolved tt,
       {| config := ConfigManager.removeAuthAccount uuid (config w);
          disk := ConfigManager.removeAuthAccount uuid (config w);
          remote := p;
          trace := trace w ++
            [CallInvalidate (ConfigManager.accessToken account)
                            (ConfigManager.getClientToken (config w));
             StoreRemove uuid; StoreSave] |}).
Proof.
  intros Hstored Hok. unfold_run. cbn. rewrite Hstored. cbn.
  destruct (invalidate api _ _ _) as [[response|e] p]; cbn in *; [|done].
  destruct (responseStatus response); cbn in *; [|done].
  exists p. by rewrite <- !app_assoc.
Qed.

(** X20: an account that was just added can be removed again: the token
    [removeMojangAccount] presents to [invalidate] is the access token of the
    session that [addMojangAccount] was answered with, together with the
    client token then in the store (the one stored before, or else the one of
    that session); if that call succeeds, the account is gone from the store
    and the configuration is saved. *)
Theorem add_then_remove
        (username password : string) (w : World P)
        (session : Session.t) (profile : Profile) :
  authenticates api username password w session profile ->
  let added := snd (addMojangAccount queryJS api username password w) in
  let token := match ConfigManager.getClientToken (config w) with
               | Some stored => stored
               | None => Session.clientToken session
               end in
  succeeded (fst (invalidate api (Session.accessToken session) (Some token)
                             (remote added))) = true ->
  let result := removeMojangAccount api (id profile) added in
  fst result = Resolved tt /\
  ConfigManager.getAuthAccount (id profile) (config (snd result)) = None /\
  saved (snd result) /\
  trace (snd result)
  = (trace added ++
     [CallInvalidate (Session.accessToken session) (Some token);
      StoreRemove (id profile); StoreSave])%list.
Proof.
  intros Hauth added token Hok result.
  destruct (addMojangAccount_success_stored _ _ _ _ _ Hauth)
    as (account & _ & Hstored & Htoken & Hclient).
  fold added in Hstored, Hclient. fold token in Hclient.
  destruct (removeMojangAccount_success_run (id profile) added account Hstored)
    as [p Hrun].
  { by rewrite Htoken, Hclient. }
  subst result. rewrite Hrun. cbn. rewrite Htoken, Hclient.
  split; [done|]. split; [apply getAuthAccount_remove|]. done.
Qed.

(** A [validateSelected] that refreshes the token, step by step. *)
Lemma validateSelected_refreshed_run
      (w : World P) (current : ConfigManager.AuthAccount)
      (response : RestResponse bool) (p : P)
      (refreshResponse : RestResponse Session.t) (p' : P) (session : Session.t) :
  ConfigManager.getSelectedAccount (config w) = Some current ->
  validate_answer api current w = (Normal response, p) ->
  responseStatus response = SUCCESS ->
  truthy (data response) = false ->
  refresh api (ConfigManager.accessToken current)
          (ConfigManager.getClientToken (config w)) p
  = (Normal refreshResponse, p') ->
  responseStatus refreshResponse = SUCCESS ->
  data refreshResponse = Some session ->
  validateSelected api w
  = (Resolved (Some true),
     {| config := ConfigManager.updateMojangAuthAccount
                    (ConfigManager.uuid current) (Session.accessToken session)
                    (config w);
        disk := ConfigManager.updateMojangAuthAccount
                  (ConfigManager.uuid current) (Session.accessToken session)
                  (config w);
        remote := p';
        trace := trace w ++
          [CallValidate (ConfigManager.accessToken current)
                        (ConfigManager.getClientToken (config w));
           CallRefresh (ConfigManager.accessToken current)
                       (ConfigManager.getClientToken (config w));
           StoreUpdate (ConfigManager.uuid current) (Session.accessToken session);
           StoreSave;
           Log LogInfo "Account access token validated." None] |}).
Proof.
  intros Hsel Hcall Hstatus Hinvalid Hrefresh Hrstatus Hrdata.
  unfold validate_answer in Hcall.
  unfold_run. cbn. rewrite Hsel. cbn. rewrite Hcall. cbn.
  rewrite Hstatus. cbn. rewrite Hinvalid. cbn. rewrite Hrefresh. cbn.
  rewrite Hrstatus. cbn. rewrite Hrdata. cbn.
  by rewrite <- !app_assoc.
Qed.

(** [validateSelected] starts by validating the selected account. *)
Lemma validateSelected_starts_with_validate
      (w : World P) (current : ConfigManager.AuthAccount) :
  ConfigManager.getSelectedAccount (config w) = Some current ->
  exists rest : list Event,
    trace (snd (validateSelected api w))
    = (trace w ++
       CallValidate (ConfigManager.accessToken current)
                    (ConfigManager.getClientToken (config w)) :: rest)%list.
Proof.
  intros Hsel. unfold_run. cbn. rewrite Hsel. cbn.
  destruct (validate api _ _ _) as [[response|e] p]; cbn; [|by exists []].
  destruct (responseStatus response); cbn; [|by exists []].
  destruct (truthy (data response)); cbn;
    [eexists; by rewrite <- !app_assoc|].
  destruct (refresh api _ _ _) as [[refreshResponse|e] p']; cbn;
    [|eexists; by rewrite <- !app_assoc].
  destruct (responseStatus refreshResponse); cbn;
    [|eexists; by rewrite <- !app_assoc].
  destruct (data refreshResponse) as [session|]; cbn;
    eexists; by rewrite <- !app_assoc.
Qed.

(** X21: the refreshed token is the one used from then on: in a
    well-formed store, after a [validateSelected] that refreshed the token of
    the selected account, the next [validateSelected] presents the access
    token of the refresh response to [validate], with the unchanged client
    token. *)
Theorem validateSelected_refreshed_token_is_used_next
        (w : World P) (current : ConfigManager.AuthAccount)
        (response : RestResponse bool) (p : P)
        (refreshResponse : RestResponse Session.t) (p' : P) (session : Session.t) :
  ConfigManager.well_formed (config w) ->
  ConfigManager.getSelectedAccount (config w) = Some current ->
  validate_answer api current w = (Normal response, p) ->
  responseStatus response = SUCCESS ->
  truthy (data response) = false ->
  refresh api (ConfigManager.accessToken current)
          (ConfigManager.getClientToken (config w)) p
  = (Normal refreshResponse, p') ->
  responseStatus refreshResponse = SUCCESS ->
  data refreshResponse = Some session ->
  let refreshed := snd (validateSelected api w) in
  exists rest : list Event,
    trace (snd (validateSelected api refreshed))
    = (trace refreshed ++
       CallValidate (Session.accessToken session)
                    (ConfigManager.getClientToken (config w)) :: rest)%list.
Proof.
  intros Hwf Hsel Hcall Hstatus Hinvalid Hrefresh Hrstatus Hrdata refreshed.
  destruct (getSelectedAccount_stored _ _ Hwf Hsel) as [Hkey Hstored].
  pose proof (validateSelected_refreshed_run _ _ _ _ _ _ _
                Hsel Hcall Hstatus Hinvalid Hrefresh Hrstatus Hrdata) as Hrun.
  assert (Hnext : ConfigManager.getSelectedAccount (config refreshed)
                  = Some (ConfigManager.with_token (Session.accessToken session) current)).
  { subst refreshed. rewrite Hrun. cbn.
    unfold ConfigManager.getSelectedAccount. cbn. rewrite Hkey.
    by apply (getAuthAccount_update _ _ (config w)). }
  destruct (validateSelected_starts_with_validate refreshed _ Hnext) as [rest Hrest].
  exists rest. rewrite Hrest. subst refreshed. rewrite Hrun. reflexivity.
Qed.

End Composition.

Section Again.
Variable queryJS : string -> string.
Context {P : Type}.
Variable api : MojangRestAPI P.

(** X22: an account can be removed once: after a [removeMojangAccount]
    that succeeded, the same call again finds no record, does not call the
    provider and is rejected with the raw [TypeError], leaving everything
    but the log as the first call left it. *)
Theorem remove_twice
        (uuid : string) (w : World P) (account : ConfigManager.AuthAccount) :
  ConfigManager.getAuthAccount uuid (config w) = Some account ->
  succeeded (fst (invalidate api (ConfigManager.accessToken account)
                             (ConfigManager.getClientToken (config w)) (remote w)))
  = true ->
  let removed := snd (removeMojangAccount api uuid w) in
  fst (removeMojangAccount api uuid w) = Resolved tt /\
  removeMojangAccount api uuid removed
  = (Rejected (TypeError "Cannot read properties of undefined (reading 'accessToken')"),
     untouched removed (remote removed)
       [Log LogError "Error while removing account"
            (Some (TypeError "Cannot read properties of undefined (reading 'accessToken')"))]).
Proof.
  intros Hstored Hok removed.
  destruct (removeMojangAccount_success_run api uuid w account Hstored Hok)
    as [p Hrun].
  subst removed. rewrite Hrun. cbn. split; [done|].
  unfold_run. cbn. rewrite getAuthAccount_remove. reflexivity.
Qed.

(** X23: the three exported functions keep the store well formed (every
    record under its own id, the selection pointing at a stored record),
    whatever the provider answers. *)
Theorem exported_functions_keep_well_formed (w : World P) :
  ConfigManager.well_formed (config w) ->
  (forall username password,
      ConfigManager.well_formed
        (config (snd (addMojangAccount queryJS api username password w)))) /\
  (forall uuid,
      ConfigManager.well_formed (config (snd (removeMojangAccount api uuid w)))) /\
  ConfigManager.well_formed (config (snd (validateSelected api w))).
Proof.
  intros Hwf. split; [|split].
  - intros username password. by apply addMojangAccount_well_formed.
  - intros uuid. by apply removeMojangAccount_well_formed.
  - by apply validateSelected_well_formed.
Qed.

End Again.

(** ** The further properties on sample collaborators *)

Lemma addMojangAccount_provider_error_mapped_witness :
  exists d,
    mojangErrorDisplayable Demo.catalogue (Member ERROR_RATELIMIT) = Normal d /\
    addMojangAccount Demo.catalogue (Demo.failing (Member ERROR_RATELIMIT))
                     "alex" "pw-a" Demo.fresh
    = (Rejected (DisplayableObject d),
       untouched Demo.fresh 1 [CallAuthenticate "alex" "pw-a" None; ConsoleLog]).
Proof.
  apply (addMojangAccount_provider_error_mapped Demo.catalogue
           (Demo.failing (Member ERROR_RATELIMIT)) "alex" "pw-a" Demo.fresh
           (Demo.failed (Member ERROR_RATELIMIT)) 1 ERROR_RATELIMIT).
  - reflexivity.
  - discriminate.
  - reflexivity.
Defined.

Lemma addMojangAccount_thrown_is_unknown_witness :
  addMojangAccount Demo.catalogue Demo.broken "alex" "pw-a" Demo.fresh
  = (Rejected (DisplayableObject
                 {| title := "[auth.mojang.error.unknownErrorTitle]";
                    desc := "[auth.mojang.error.unknownErrorDesc]" |}),
     untouched Demo.fresh 0
       [CallAuthenticate "alex" "pw-a" None;
        Log LogError "" (Some (Error "socket hang up"))]).
Proof.
  apply (addMojangAccount_thrown_is_unknown Demo.catalogue Demo.broken
           "alex" "pw-a" Demo.fresh (Error "socket hang up") 0).
  reflexivity.
Defined.


Lemma addMojangAccount_rejects_only_displayable_witness :
  exists code d,
    mojangErrorDisplayable Demo.catalogue (Member code) = Normal d /\
    DisplayableObject {| title := "[auth.mojang.error.unknownErrorTitle]";
                         desc := "[auth.mojang.error.unknownErrorDesc]" |}
    = DisplayableObject d.
Proof.
  apply (addMojangAccount_rejects_only_displayable Demo.catalogue
           (Demo.failing (Foreign "42")) "alex" "pw-a" Demo.fresh).
  reflexivity.
Defined.


Lemma addMojangAccount_keeps_client_token_witness :
  let result := addMojangAccount Demo.catalogue (Demo.service true true true)
                                 "alex" "pw-a" Demo.logged_in in
  ConfigManager.getClientToken (config (snd result)) = Some "client-steve" /\
  exists events : list Event,
    trace (snd result)
    = (trace Demo.logged_in ++
       CallAuthenticate "alex" "pw-a" (Some "client-steve") :: events)%list /\
    count_events is_set_client_token events = 0 /\
    count_events is_provider_call events = 0.
Proof.
  apply (addMojangAccount_keeps_client_token Demo.catalogue
           (Demo.service true true true) "alex" "pw-a" Demo.logged_in "client-steve").
  reflexivity.
Defined.

Lemma addMojangAccount_stores_and_saves_witness :
  let result := addMojangAccount Demo.catalogue (Demo.service true true true)
                                 "alex" "pw-a" Demo.fresh in
  exists account,
    fst result = Resolved account /\
    ConfigManager.getAuthAccount "uuid-alex" (config (snd result)) = Some account /\
    ConfigManager.username account = "alex" /\
    ConfigManager.displayName account = "alex" /\
    saved (snd result).
Proof.
  apply (addMojangAccount_stores_and_saves Demo.catalogue
           (Demo.service true true true) "alex" "pw-a" Demo.fresh
           (Demo.session_for "alex" true) {| id := "uuid-alex"; name := "alex" |}).
  eexists. repeat split; reflexivity.
Defined.

Lemma removeMojangAccount_error_response_is_raw_witness :
  removeMojangAccount (Demo.failing (Member ERROR_UNREACHABLE)) "uuid-steve"
                      Demo.logged_in
  = (Rejected (RestError (Some "request failed")),
     untouched Demo.logged_in 2
       [CallInvalidate "access-steve" (Some "client-steve");
        Log LogError "Error while removing account"
            (Some (RestError (Some "request failed")))]).
Proof.
  apply (removeMojangAccount_error_response_is_raw
           (Demo.failing (Member ERROR_UNREACHABLE)) "uuid-steve" Demo.logged_in
           Demo.steve (Demo.failed (Member ERROR_UNREACHABLE)) 2).
  - reflexivity.
  - reflexivity.
  - discriminate.
Defined.

Lemma removeMojangAccount_thrown_is_rethrown_witness :
  removeMojangAccount Demo.broken "uuid-steve" Demo.logged_in
  = (Rejected (Error "socket hang up"),
     untouched Demo.logged_in 1
       [CallInvalidate "access-steve" (Some "client-steve");
        Log LogError "Error while removing account"
            (Some (Error "socket hang up"))]) /\
  ConfigManager.getAuthAccount "uuid-steve"
    (config (snd (removeMojangAccount Demo.broken "uuid-steve" Demo.logged_in)))
  = Some Demo.steve.
Proof.
  apply (removeMojangAccount_thrown_is_rethrown Demo.broken "uuid-steve"
           Demo.logged_in Demo.steve (Error "socket hang up") 1).
  - reflexivity.
  - reflexivity.
Defined.

Lemma validateSelected_without_selection_witness :
  validateSelected (Demo.service true true true) Demo.fresh
  = (Rejected (TypeError "Cannot read properties of undefined (reading 'accessToken')"),
     Demo.fresh).
Proof.
  apply (validateSelected_without_selection (Demo.service true true true) Demo.fresh).
  reflexivity.
Defined.

Lemma validateSelected_validate_throws_witness :
  validateSelected Demo.broken Demo.logged_in
  = (Rejected (Error "socket hang up"),
     untouched Demo.logged_in 1
       [CallValidate "access-steve" (Some "client-steve")]).
Proof.
  apply (validateSelected_validate_throws Demo.broken Demo.logged_in Demo.steve
           (Error "socket hang up") 1).
  - reflexivity.
  - reflexivity.
Defined.

Lemma validateSelected_refresh_throws_witness :
  validateSelected
    (Demo.scripted (Throw (Error "unused")) (Normal (Demo.ok tt))
                   (Normal (Demo.ok false)) (Throw (Error "socket hang up")))
    Demo.logged_in
  = (Rejected (Error "socket hang up"),
     untouched Demo.logged_in 3
       [CallValidate "access-steve" (Some "client-steve");
        CallRefresh "access-steve" (Some "client-steve")]).
Proof.
  apply (validateSelected_refresh_throws
           (Demo.scripted (Throw (Error "unused")) (Normal (Demo.ok tt))
                          (Normal (Demo.ok false))
                          (Throw (Error "socket hang up")))
           Demo.logged_in Demo.steve (Demo.ok false) 2 (Error "socket hang up") 3).
  - reflexivity.
  - reflexivity.
  - reflexivity.
  - reflexivity.
  - reflexivity.
Defined.


Lemma validateSelected_provider_calls_witness :
  exists rest : list Event,
    trace (snd (validateSelected (Demo.service true false true) Demo.logged_in))
    = (trace Demo.logged_in ++
       CallValidate "access-steve" (Some "client-steve") :: rest)%list /\
    count_events is_provider_call rest <= 1 /\
    (forall e, In e rest -> is_provider_call e = true ->
       e = CallRefresh "access-steve" (Some "client-steve")).
Proof.
  apply (validateSelected_provider_calls (Demo.service true false true)
           Demo.logged_in Demo.steve).
  reflexivity.
Defined.


Lemma mojangErrorDisplayable_keys_distinct_witness : ERROR_GONE = ERROR_GONE.
Proof.
  apply (mojangErrorDisplayable_keys_distinct Demo.echo ERROR_GONE ERROR_GONE
           {| title := "auth.mojang.error.accountGoneTitle";
              desc := "auth.mojang.error.accountGoneDesc" |}
           {| title := "auth.mojang.error.accountGoneTitle";
              desc := "auth.mojang.error.accountGoneDesc" |}).
  - intros key1 key2 Hsame. exact Hsame.
  - reflexivity.
  - reflexivity.
  - left. reflexivity.
Defined.

Lemma add_then_remove_witness :
  let added := snd (addMojangAccount Demo.catalogue (Demo.service true true true)
                                     "alex" "pw-a" Demo.fresh) in
  let result := removeMojangAccount (Demo.service true true true) "uuid-alex" added in
  fst result = Resolved tt /\
  ConfigManager.getAuthAccount "uuid-alex" (config (snd result)) = None /\
  saved (snd result) /\
  trace (snd result)
  = (trace added ++
     [CallInvalidate "access-alex" (Some "client-alex");
      StoreRemove "uuid-alex"; StoreSave])%list.
Proof.
  apply (add_then_remove Demo.catalogue (Demo.service true true true)
           "alex" "pw-a" Demo.fresh
           (Demo.session_for "alex" true) {| id := "uuid-alex"; name := "alex" |}).
  - eexists. repeat split; reflexivity.
  - reflexivity.
Defined.

Lemma validateSelected_refreshed_token_is_used_next_witness :
  let refreshed := snd (validateSelected (Demo.service true false true)
                                         Demo.logged_in) in
  exists rest : list Event,
    trace (snd (validateSelected (Demo.service true false true) refreshed))
    = (trace refreshed ++
       CallValidate "access-renewed" (Some "client-steve") :: rest)%list.
Proof.
  apply (validateSelected_refreshed_token_is_used_next
           (Demo.service true false true) Demo.logged_in Demo.steve
           (Demo.ok false) 2 (Demo.ok (Demo.session_for "renewed" true)) 3
           (Demo.session_for "renewed" true)).
  - exact Demo_steve_config_well_formed.
  - reflexivity.
  - reflexivity.
  - reflexivity.
  - reflexivity.
  - reflexivity.
  - reflexivity.
  - reflexivity.
Defined.

Lemma remove_twice_witness :
  let removed := snd (removeMojangAccount (Demo.service true true true)
                                          "uuid-steve" Demo.logged_in) in
  fst (removeMojangAccount (Demo.service true true true) "uuid-steve" Demo.logged_in)
  = Resolved tt /\
  removeMojangAccount (Demo.service true true true) "uuid-steve" removed
  = (Rejected (TypeError "Cannot read properties of undefined (reading 'accessToken')"),
     untouched removed (remote removed)
       [Log LogError "Error while removing account"
            (Some (TypeError "Cannot read properties of undefined (reading 'accessToken')"))]).
Proof.
  apply (remove_twice (Demo.service true true true) "uuid-steve" Demo.logged_in
           Demo.steve).
  - reflexivity.
  - reflexivity.
Defined.

Lemma exported_functions_keep_well_formed_witness :
  (forall username password,
      ConfigManager.well_formed
        (config (snd (addMojangAccount Demo.catalogue (Demo.service true true true)
                                       username password Demo.logged_in)))) /\
  (forall uuid,
      ConfigManager.well_formed
        (config (snd (removeMojangAccount (Demo.service true true true) uuid
                                          Demo.logged_in)))) /\
  ConfigManager.well_formed
    (config (snd (validateSelected (Demo.service true true true) Demo.logged_in))).
Proof.
  apply (exported_functions_keep_well_formed Demo.catalogue
           (Demo.service true true true) Demo.logged_in).
  exact Demo_steve_config_well_formed.
Defined.
